(** * Jenkins-Sentinel: the agent manager's pattern store and remediation engine

    A shallow embedding of [app/services/agent_manager.py] and of the part of
    [app/utils/log_analyzer.py] it calls, followed by the properties of the
    pattern store (matching, learning, correlation, pruning) and of the
    remediation pass.

    Conventions of the embedding.
    - A Python [str] is a [string] (ASCII text); [+:+] is concatenation.
    - A [datetime] is a number of microseconds ([Z]); a [timedelta] likewise.
      Every operation reads the clock once: it takes [now] as an argument.
    - A Python [dict] whose iteration order is observable (the pattern
      database, the analysis cache, the action history) is an insertion
      ordered association list ([odict]); a parameter mapping, of which only
      the contents are ever used, is a [gmap].
    - A loosely typed record (a [dict] with optional keys) is a [Record]
      whose optional keys are [option] fields; a missing key and a key bound
      to [None] are both [None].
    - A Python exception is a value of [exn]; code that can raise returns a
      [pyres]; code that mutates [self] takes and returns a [World]. *)

From Stdlib Require Import ZArith String Ascii List Floats.
From stdpp Require Import base option list strings gmap pretty.

Set Warnings "-inexact-float".
Local Open Scope string_scope.
Local Open Scope list_scope.
Local Open Scope Z_scope.

(** ** Python values, exceptions *)

Inductive exn : Type :=
  | KeyError (key : string)
  | AttributeError (msg : string)
  | TypeError (msg : string)
  | ValueError (msg : string)
  | ExternalError (msg : string).

Inductive pyres (A : Type) : Type :=
  | Ok (a : A)
  | Raise (e : exn).
Arguments Ok {A} a.
Arguments Raise {A} e.

Definition rbind {A B} (r : pyres A) (f : A → pyres B) : pyres B :=
  match r with
  | Ok a => f a
  | Raise e => Raise e
  end.

Notation "x ←r r ; k" := (rbind r (λ x, k))
  (at level 20, r at level 100, k at level 200, only parsing).

(** The values stored under the keys of the loosely typed dictionaries:
    [None], a [str], an [int]. *)
Inductive atom : Type :=
  | ANone
  | AStr (s : string)
  | AInt (z : Z).

Global Instance atom_eq_dec : EqDecision atom.
Proof. solve_decision. Defined.

(** [str(v)], as an f-string renders a value. *)
Definition py_str (a : atom) : string :=
  match a with
  | ANone => "None"
  | AStr s => s
  | AInt z => pretty z
  end.

(** Truth value of [v] in [if v:]. *)
Definition py_truthy (a : atom) : bool :=
  match a with
  | ANone => false
  | AStr s => negb (String.eqb s "")
  | AInt z => negb (Z.eqb z 0)
  end.

(** [sep.join(parts)]. *)
Fixpoint join (sep : string) (parts : list string) : string :=
  match parts with
  | [] => ""
  | [p] => p
  | p :: ps => p +:+ sep +:+ join sep ps
  end.

(** [max(a, b)] on [str]: lexicographic by code point, the first argument
    winning a tie. *)
Definition py_max_str (a b : string) : string :=
  if String.ltb a b then b else a.

(** [l[-n:]] for a positive [n]. *)
Definition lastn {A} (n : nat) (l : list A) : list A :=
  drop (length l - n) l.

(** ** Insertion-ordered dictionaries *)

Section odict.
Context {K V : Type} `{EqDecision K}.

Definition odict : Type := list (K * V).

(** [d.get(k)] *)
Fixpoint oget (k : K) (d : odict) : option V :=
  match d with
  | [] => None
  | (k', v) :: d' => if decide (k' = k) then Some v else oget k d'
  end.

(** [d[k] = v]: an existing key keeps its position, a new one goes last. *)
Fixpoint oset (k : K) (v : V) (d : odict) : odict :=
  match d with
  | [] => [(k, v)]
  | (k', v') :: d' =>
      if decide (k' = k) then (k, v) :: d' else (k', v') :: oset k v d'
  end.

(** [del d[k]] *)
Fixpoint odel (k : K) (d : odict) : odict :=
  match d with
  | [] => []
  | (k', v') :: d' =>
      if decide (k' = k) then d' else (k', v') :: odel k d'
  end.

Definition okeys (d : odict) : list K := d.*1.

End odict.
Arguments odict : clear implicits.

(** ** Strings: [lower], [in], [startswith] *)

Definition ascii_lower (c : ascii) : ascii :=
  let n := N_of_ascii c in
  if (N.leb 65 n && N.leb n 90)%bool then ascii_of_N (n + 32) else c.

(** [s.lower()] *)
Fixpoint lower (s : string) : string :=
  match s with
  | EmptyString => EmptyString
  | String c s' => String (ascii_lower c) (lower s')
  end.

(** [needle in hay] *)
Fixpoint contains (needle hay : string) : bool :=
  String.prefix needle hay ||
  match hay with
  | EmptyString => false
  | String _ hay' => contains needle hay'
  end.

(** [s.startswith(p)] *)
Definition startswith (s p : string) : bool := String.prefix p s.

(** ** Data model ([app/models/build.py] and the pattern dictionaries) *)

Abbreviation params := (gmap string atom).

Record BuildInfo : Type := {
  job_name : string;
  build_number : Z;
  result : string;
  bi_timestamp : Z;
  duration : Z;
  parameters : params;
  url : string;
  console_log : option string
}.

(** One entry of [BuildAnalysis.error_patterns], a [Dict[str, Any]] read
    under the keys ['pattern'] and ['type']. *)
Record ErrorPattern : Type := {
  ep_pattern : option string;
  ep_type : option string;
  ep_context : option string
}.

Record BuildAnalysis : Type := {
  build_info : BuildInfo;
  last_success : option BuildInfo;
  error_patterns : list ErrorPattern;
  differences : list (odict string atom);
  recommendations : list string;
  severity : string;
  confidence : float;
  timestamp : Z
}.

(** The ['solution'] dictionary of a pattern. *)
Record Solution : Type := {
  s_type : option string;
  s_parameters : option params;
  s_message : option string;
  s_reason : option string;
  s_max_retries : option Z
}.

(** One entry of the ['contexts'] history of a failure pattern. *)
Record Context : Type := {
  c_build_number : Z;
  c_timestamp : Z;
  c_parameters : params;
  c_duration : Z
}.

(** One entry of the parameter diff: [{'type': .., 'old': .., 'new': ..}]. *)
Record DiffEntry : Type := {
  d_type : string;
  d_old : atom;
  d_new : atom
}.

Global Instance DiffEntry_eq_dec : EqDecision DiffEntry.
Proof. solve_decision. Defined.

(** A pattern of the pattern database: a dictionary whose keys depend on
    who created it.  ['type'] is ['failure'], ['success'] or
    ['correlation']; the patterns loaded from the database and those of the
    batch extraction have no ['type'] key. *)
Record PatternRecord : Type := {
  p_type : option string;
  p_pattern : string;
  p_frequency : Z;
  p_last_seen : Z;
  p_solution : option Solution;
  (* failure *)
  p_severity : option string;
  p_confidence : option float;
  p_error_type : option string;
  p_contexts : option (list Context);
  (* success *)
  p_indicator : option string;
  p_success_rate : option float;
  p_build_params : option params;
  p_environment : option params;
  p_duration_range : option (Z * Z);
  (* correlation *)
  p_parameter_changes : option (gmap string DiffEntry);
  p_success_build : option Z;
  p_failure_build : option Z
}.

(** What [analyze_test_failures] returns; an entry of ['failed_tests'] is
    whatever the regular expression captured ([str] or [None]), while
    [handle_test_failures] reads each entry as a dictionary. *)
Inductive pyval : Type :=
  | VAtom (a : atom)
  | VDict (d : odict string atom).

Record TestResults : Type := {
  failed_tests : list pyval;
  error_count : Z;
  failure_count : Z;
  skipped_count : Z
}.

Inductive Details : Type :=
  | DTests (t : TestResults)
  | DIssues (l : list (odict string atom)).

(** An entry of the action history. *)
Record ActionRecord : Type := {
  a_type : option string;
  a_pattern : option string;
  a_action : option string;
  a_result : option string;
  a_details : option Details;
  a_timestamp : Z
}.

(** Calls that leave the process, in the order they were made. *)
Inductive Event : Type :=
  | EvBuildJob (job : string) (ps : params)
  | EvNotifyTeam (job : string) (message : option string)
  | EvCheckTestEnvironment (package : string)
  | EvAnalyzeTestFailure (name : string)
  | EvUpdateBuildDescription (job : string) (number : Z) (description : string)
  | EvLogError (msg : string).

(** The mutable attributes of [AgentManager]. *)
Record World : Type := {
  pattern_database : odict string (list PatternRecord);
  analysis_cache : odict string BuildAnalysis;
  action_history : odict string (list ActionRecord);
  learning_enabled : bool;
  events : list Event
}.

Definition set_pattern_database (db : odict string (list PatternRecord))
    (w : World) : World :=
  {| pattern_database := db;
     analysis_cache := analysis_cache w;
     action_history := action_history w;
     learning_enabled := learning_enabled w;
     events := events w |}.

Definition set_analysis_cache (c : odict string BuildAnalysis)
    (w : World) : World :=
  {| pattern_database := pattern_database w;
     analysis_cache := c;
     action_history := action_history w;
     learning_enabled := learning_enabled w;
     events := events w |}.

Definition set_action_history (h : odict string (list ActionRecord))
    (w : World) : World :=
  {| pattern_database := pattern_database w;
     analysis_cache := analysis_cache w;
     action_history := h;
     learning_enabled := learning_enabled w;
     events := events w |}.

Definition emit (e : Event) (w : World) : World :=
  {| pattern_database := pattern_database w;
     analysis_cache := analysis_cache w;
     action_history := action_history w;
     learning_enabled := learning_enabled w;
     events := events w ++ [e] |}.

(** [f"{job_name}#{build_number}"] *)
Definition build_key (job : string) (number : Z) : string :=
  job +:+ "#" +:+ pretty number.

(** [timedelta(days=n)] *)
Definition days (n : Z) : Z := n * 86400000000.

(** ** What the agent manager calls outside this module

    The CI server, the analyzer, Python's [hash] and [str] of a dictionary
    or a float, and the three log scrapers of [app/utils/log_analyzer.py]
    that return issue lists or timings.  A call that can raise returns
    [Some message] or a [pyres]. *)
Record Externals : Type := {
  (* [hash(str(sorted(d.items())))] *)
  py_hash_params : params → Z;
  py_hash_diff : gmap string DiffEntry → Z;
  (* [str(d)], [str(x)] *)
  repr_params : params → string;
  str_float : float → string;
  (* [jenkins.server.build_job], [jenkins.update_build_description] *)
  jenkins_build_job : string → params → option string;
  jenkins_update_build_description : string → Z → string → option string;
  (* [analyzer.analyze_build] *)
  analyzer_analyze_build : string → Z → pyres BuildAnalysis;
  (* log scrapers *)
  analyze_build_time : string → pyres unit;
  analyze_dependency_issues : string → pyres (list (odict string atom));
  analyze_compilation_issues : string → pyres (list (odict string atom))
}.

(** ** Matching: [pattern_matches], [match_known_patterns] *)

(** [any(error['pattern'] == pattern_str for error in errors)]: the
    subscript raises on an entry without the key, unless an earlier entry
    already matched. *)
Fixpoint any_pattern_eq (pattern_str : string) (errors : list ErrorPattern)
    : pyres bool :=
  match errors with
  | [] => Ok false
  | error :: rest =>
      match ep_pattern error with
      | None => Raise (KeyError "pattern")
      | Some s =>
          if String.eqb s pattern_str then Ok true
          else any_pattern_eq pattern_str rest
      end
  end.

Definition pattern_matches (pattern : PatternRecord) (analysis : BuildAnalysis)
    : pyres bool :=
  any_pattern_eq (p_pattern pattern) (error_patterns analysis).

Fixpoint collect_matches (analysis : BuildAnalysis)
    (patterns : list PatternRecord) : pyres (list PatternRecord) :=
  match patterns with
  | [] => Ok []
  | pattern :: rest =>
      m ←r pattern_matches pattern analysis;
      matches ←r collect_matches analysis rest;
      Ok (if m : bool then pattern :: matches else matches)
  end.

Definition match_known_patterns (w : World) (analysis : BuildAnalysis)
    : pyres (list PatternRecord) :=
  collect_matches analysis
    (default [] (oget (job_name (build_info analysis)) (pattern_database w))).

(** ** Learning from failures: [update_failure_patterns] *)

Definition is_failure_with (pattern_key : string) (pattern : PatternRecord)
    : Prop :=
  p_type pattern = Some "failure" ∧ p_pattern pattern = pattern_key.

Global Instance is_failure_with_dec k r : Decision (is_failure_with k r).
Proof. unfold is_failure_with. apply _. Defined.

Definition context_of (analysis : BuildAnalysis) : Context :=
  {| c_build_number := build_number (build_info analysis);
     c_timestamp := timestamp analysis;
     c_parameters := parameters (build_info analysis);
     c_duration := duration (build_info analysis) |}.

(** The branch [if existing_pattern:]. *)
Definition update_failure_record (now : Z) (analysis : BuildAnalysis)
    (existing : PatternRecord) : PatternRecord :=
  {| p_type := p_type existing;
     p_pattern := p_pattern existing;
     p_frequency := p_frequency existing + 1;
     p_last_seen := now;
     p_solution := p_solution existing;
     p_severity :=
       Some (py_max_str (default "medium" (p_severity existing))
                        (severity analysis));
     p_confidence := p_confidence existing;
     p_error_type := p_error_type existing;
     p_contexts :=
       Some (lastn 10 (default [] (p_contexts existing)
                       ++ [context_of analysis]));
     p_indicator := p_indicator existing;
     p_success_rate := p_success_rate existing;
     p_build_params := p_build_params existing;
     p_environment := p_environment existing;
     p_duration_range := p_duration_range existing;
     p_parameter_changes := p_parameter_changes existing;
     p_success_build := p_success_build existing;
     p_failure_build := p_failure_build existing |}.

Definition mk_solution (type : string) (ps : option params)
    (message : option string) (reason : string) (max_retries : option Z)
    : Solution :=
  {| s_type := Some type; s_parameters := ps; s_message := message;
     s_reason := Some reason; s_max_retries := max_retries |}.

Definition _derive_initial_solution (error_pattern : ErrorPattern)
    : option Solution :=
  let error_type := default "unknown" (ep_type error_pattern) in
  let pattern := default "" (ep_pattern error_pattern) in
  if String.eqb error_type "test_failure" then
    Some (mk_solution "retry" None None
            "Test failures often resolve on retry" (Some 2))
  else if String.eqb error_type "dependency_issue" then
    Some (mk_solution "parameter_adjust"
            (Some {[ "clean_dependencies" := AStr "true" ]}) None
            "Clean dependency cache and retry" None)
  else if String.eqb error_type "compilation_error" then
    Some (mk_solution "notification" None
            (Some ("Compilation error detected: " +:+ pattern))
            "Code changes needed, notify development team" None)
  else if contains "timeout" (lower pattern) then
    Some (mk_solution "parameter_adjust"
            (Some {[ "timeout" := AStr "1800" ]}) None
            "Increase timeout for long-running builds" None)
  else if contains "out of memory" (lower pattern)
          || contains "oom" (lower pattern) then
    Some (mk_solution "parameter_adjust"
            (Some {[ "memory" := AStr "4g" ]}) None
            "Increase memory allocation" None)
  else None.

(** The branch [else:] that creates a failure pattern. *)
Definition new_failure_pattern (now : Z) (analysis : BuildAnalysis)
    (error_pattern : ErrorPattern) : PatternRecord :=
  {| p_type := Some "failure";
     p_pattern := default "" (ep_pattern error_pattern);
     p_frequency := 1;
     p_last_seen := now;
     p_solution := _derive_initial_solution error_pattern;
     p_severity := Some (severity analysis);
     p_confidence := Some (confidence analysis);
     p_error_type := Some (default "unknown" (ep_type error_pattern));
     p_contexts := Some [context_of analysis];
     p_indicator := None;
     p_success_rate := None;
     p_build_params := None;
     p_environment := None;
     p_duration_range := None;
     p_parameter_changes := None;
     p_success_build := None;
     p_failure_build := None |}.

(** One turn of [for error_pattern in analysis.error_patterns], on the
    job's list: the first failure pattern with that key is updated in
    place, or a new one is appended. *)
Definition record_error_pattern (now : Z) (analysis : BuildAnalysis)
    (patterns : list PatternRecord) (error_pattern : ErrorPattern)
    : list PatternRecord :=
  let pattern_key := default "" (ep_pattern error_pattern) in
  match list_find (is_failure_with pattern_key) patterns with
  | Some (i, existing_pattern) =>
      <[i := update_failure_record now analysis existing_pattern]> patterns
  | None => patterns ++ [new_failure_pattern now analysis error_pattern]
  end.

(** ** Parameter diff: [_compare_build_parameters] *)

Definition diff_entry (current success : option atom) : option DiffEntry :=
  match current, success with
  | None, Some old => Some {| d_type := "removed"; d_old := old; d_new := ANone |}
  | Some new, None => Some {| d_type := "added"; d_old := ANone; d_new := new |}
  | Some new, Some old =>
      if decide (new = old) then None
      else Some {| d_type := "changed"; d_old := old; d_new := new |}
  | None, None => None
  end.

(** [diff[key]] is set, key by key over the union of the keys. *)
Definition _compare_build_parameters (current_params success_params : params)
    : gmap string DiffEntry :=
  merge diff_entry current_params success_params.

(** [{k: v['old'] for k, v in param_diff.items() if v['type'] == 'changed'}] *)
Definition revert_parameters (param_diff : gmap string DiffEntry) : params :=
  omap (λ v, if String.eqb (d_type v) "changed" then Some (d_old v) else None)
       param_diff.

(** [max(l, key=lambda x: x.build_info.build_number)] of a list [best :: l]:
    the first element of the greatest build number. *)
Fixpoint max_by_build_number (best : BuildAnalysis) (l : list BuildAnalysis)
    : BuildAnalysis :=
  match l with
  | [] => best
  | x :: l' =>
      if build_number (build_info best) <? build_number (build_info x)
      then max_by_build_number x l'
      else max_by_build_number best l'
  end.

(** The cached analyses [_correlate_failure_with_success] retains. *)
Definition is_prior_success (analysis : BuildAnalysis)
    (entry : string * BuildAnalysis) : bool :=
  startswith entry.1 (job_name (build_info analysis) +:+ "#")
  && String.eqb (result (build_info entry.2)) "SUCCESS"
  && (build_number (build_info entry.2) <? build_number (build_info analysis)).

Definition successful_analyses (w : World) (analysis : BuildAnalysis)
    : list BuildAnalysis :=
  (List.filter (is_prior_success analysis) (analysis_cache w)).*2.

(** ** Pruning: [cleanup_patterns], [cleanup_cache] *)

Definition pattern_is_kept (now : Z) (pattern : PatternRecord) : bool :=
  now - p_last_seen pattern <? days 30.

Definition cleanup_patterns (now : Z) (w : World) : World :=
  set_pattern_database
    (prod_map id (List.filter (pattern_is_kept now)) <$> pattern_database w) w.

Definition analysis_is_expired (now : Z) (analysis : BuildAnalysis) : bool :=
  days 7 <? now - timestamp analysis.

(** One turn of the loop of [cleanup_cache]. *)
Definition cleanup_cache_once (now : Z) (w : World) : World :=
  let expired :=
    (List.filter (λ e, analysis_is_expired now e.2) (analysis_cache w)).*1 in
  set_analysis_cache (foldl (λ c key, odel key c) (analysis_cache w) expired) w.

(** ** Batch extraction: [extract_patterns] *)

(** The two nested loops that fill [error_counts]. *)
Fixpoint count_errors (errors : list ErrorPattern) (error_counts : odict string Z)
    : pyres (odict string Z) :=
  match errors with
  | [] => Ok error_counts
  | error :: rest =>
      match ep_pattern error with
      | None => Raise (KeyError "pattern")
      | Some key =>
          count_errors rest
            (oset key (default 0 (oget key error_counts) + 1) error_counts)
      end
  end.

Fixpoint count_analyses (analyses : list BuildAnalysis)
    (error_counts : odict string Z) : pyres (odict string Z) :=
  match analyses with
  | [] => Ok error_counts
  | analysis :: rest =>
      error_counts' ←r count_errors (error_patterns analysis) error_counts;
      count_analyses rest error_counts'
  end.

(** [derive_solution] is a placeholder that returns [None]. *)
Definition derive_solution (pattern : string) (analyses : list BuildAnalysis)
    : option Solution := None.

Definition promoted_pattern (now : Z) (analyses : list BuildAnalysis)
    (pattern : string) (count : Z) : PatternRecord :=
  {| p_type := None;
     p_pattern := pattern;
     p_frequency := count;
     p_last_seen := now;
     p_solution := derive_solution pattern analyses;
     p_severity := None; p_confidence := None; p_error_type := None;
     p_contexts := None; p_indicator := None; p_success_rate := None;
     p_build_params := None; p_environment := None;
     p_duration_range := None; p_parameter_changes := None;
     p_success_build := None; p_failure_build := None |}.

Definition extract_patterns (now : Z) (analyses : list BuildAnalysis)
    : pyres (list PatternRecord) :=
  error_counts ←r count_analyses analyses [];
  Ok ((λ e, promoted_pattern now analyses e.1 e.2)
        <$> List.filter (λ e : string * Z, 3 <=? e.2) error_counts).

(** One job of the loop of [update_pattern_database]. *)
Definition refresh_job (now : Z) (job_name : string) (w : World)
    : pyres World :=
  let recent_analyses :=
    (List.filter (λ e : string * BuildAnalysis,
                    startswith e.1 (job_name +:+ "#"))
                 (analysis_cache w)).*2 in
  match recent_analyses with
  | [] => Ok w
  | _ =>
      new_patterns ←r extract_patterns now recent_analyses;
      Ok (set_pattern_database
            (oset job_name
               (default [] (oget job_name (pattern_database w)) ++ new_patterns)
               (pattern_database w)) w)
  end.

(** [for job_name in self.pattern_database.keys()], stopping at the first
    exception; the world reached so far is returned with it. *)
Fixpoint refresh_jobs (now : Z) (jobs : list string) (w : World)
    : World * option exn :=
  match jobs with
  | [] => (w, None)
  | job_name :: rest =>
      match refresh_job now job_name w with
      | Ok w' => refresh_jobs now rest w'
      | Raise e => (w, Some e)
      end
  end.

(** One turn of the loop of [update_pattern_database]: the refresh, then
    [cleanup_patterns]; an exception is logged and ends the turn. *)
Definition update_pattern_database_once (now : Z) (w : World) : World :=
  match refresh_jobs now (okeys (pattern_database w)) w with
  | (w', None) => cleanup_patterns now w'
  | (w', Some e) => emit (EvLogError "Error updating pattern database") w'
  end.

(** ** Success indicators *)

Record Indicator : Type := {
  i_pattern : string;
  i_type : string;
  i_environment : option params;
  i_duration : option Z;
  i_matched_text : option string
}.

Definition stable_params : list string := ["branch"; "environment"; "version"].

(** [{param: parameters[param] for param in stable_params if param in parameters}] *)
Definition param_indicators_of (parameters : params) : params :=
  foldl (λ acc param,
           match parameters !! param with
           | Some v => <[param := v]> acc
           | None => acc
           end) ∅ stable_params.

Definition success_patterns : list string :=
  ["BUILD SUCCESSFUL"; "Tests run: .* Failures: 0"; "All tests passed";
   "Compilation successful"; "No errors found"].

(** [s.replace(' ', '_')] *)
Fixpoint replace_space (s : string) : string :=
  match s with
  | EmptyString => EmptyString
  | String c s' =>
      String (if Ascii.eqb c " "%char then "_"%char else c) (replace_space s')
  end.

Definition _extract_log_success_indicators (console_log : string)
    : list Indicator :=
  (λ pattern,
     {| i_pattern := "log_success_" +:+ lower (replace_space pattern);
        i_type := "log_indicator";
        i_environment := None; i_duration := None;
        i_matched_text := Some pattern |})
  <$> List.filter (λ pattern, contains (lower pattern) (lower console_log))
        success_patterns.

Definition is_success_with (indicator : string) (pattern : PatternRecord)
    : Prop :=
  p_type pattern = Some "success" ∧ p_indicator pattern = Some indicator.

Global Instance is_success_with_dec k r : Decision (is_success_with k r).
Proof. unfold is_success_with. apply _. Defined.

(** [min(1.0, rate + 0.1)] *)
Definition bump_success_rate (rate : float) : float :=
  let x := (rate + 0.1)%float in
  if PrimFloat.ltb x 1%float then x else 1%float.

Definition update_success_record (now : Z) (existing : PatternRecord)
    : PatternRecord :=
  {| p_type := p_type existing;
     p_pattern := p_pattern existing;
     p_frequency := p_frequency existing + 1;
     p_last_seen := now;
     p_solution := p_solution existing;
     p_severity := p_severity existing;
     p_confidence := p_confidence existing;
     p_error_type := p_error_type existing;
     p_contexts := p_contexts existing;
     p_indicator := p_indicator existing;
     p_success_rate :=
       Some (bump_success_rate (default 0.8%float (p_success_rate existing)));
     p_build_params := p_build_params existing;
     p_environment := p_environment existing;
     p_duration_range := p_duration_range existing;
     p_parameter_changes := p_parameter_changes existing;
     p_success_build := p_success_build existing;
     p_failure_build := p_failure_build existing |}.

Definition new_success_pattern (now : Z) (analysis : BuildAnalysis)
    (indicator : Indicator) : PatternRecord :=
  {| p_type := Some "success";
     p_pattern := i_pattern indicator;
     p_frequency := 1;
     p_last_seen := now;
     p_solution := None;
     p_severity := None; p_confidence := None; p_error_type := None;
     p_contexts := None;
     p_indicator := Some (i_pattern indicator);
     p_success_rate := Some 0.9%float;
     p_build_params := Some (parameters (build_info analysis));
     p_environment := Some (default ∅ (i_environment indicator));
     p_duration_range :=
       Some (duration (build_info analysis), duration (build_info analysis));
     p_parameter_changes := None;
     p_success_build := None;
     p_failure_build := None |}.

(** One turn of [for indicator in success_indicators], on the job's list. *)
Definition record_indicator (now : Z) (analysis : BuildAnalysis)
    (patterns : list PatternRecord) (indicator : Indicator)
    : list PatternRecord :=
  match list_find (is_success_with (i_pattern indicator)) patterns with
  | Some (i, existing_pattern) =>
      <[i := update_success_record now existing_pattern]> patterns
  | None => patterns ++ [new_success_pattern now analysis indicator]
  end.

(** ** The learner *)

Section learner.
Context (ext : Externals).

Definition _extract_success_indicators (analysis : BuildAnalysis)
    : list Indicator :=
  let param_indicators := param_indicators_of (parameters (build_info analysis)) in
  (if decide (param_indicators = ∅) then []
   else [{| i_pattern :=
              "stable_params_" +:+ pretty (py_hash_params ext param_indicators);
            i_type := "parameters";
            i_environment := Some param_indicators;
            i_duration := None; i_matched_text := None |}])
  ++ (if duration (build_info analysis) =? 0 then []
      else [{| i_pattern :=
                 "timing_" +:+ (if duration (build_info analysis) <? 300
                                then "fast" else "normal");
               i_type := "timing";
               i_environment := None;
               i_duration := Some (duration (build_info analysis));
               i_matched_text := None |}])
  ++ match console_log (build_info analysis) with
     | Some log =>
         if String.eqb log "" then []
         else _extract_log_success_indicators log
     | None => []
     end.

Definition update_success_patterns (now : Z) (analysis : BuildAnalysis)
    (w : World) : World :=
  let job_name := job_name (build_info analysis) in
  let patterns := default [] (oget job_name (pattern_database w)) in
  set_pattern_database
    (oset job_name
       (foldl (record_indicator now analysis) patterns
              (_extract_success_indicators analysis))
       (pattern_database w)) w.

Definition correlation_pattern (now : Z) (analysis latest_success : BuildAnalysis)
    (param_diff : gmap string DiffEntry) : PatternRecord :=
  {| p_type := Some "correlation";
     p_pattern := "param_change_" +:+ pretty (py_hash_diff ext param_diff);
     p_frequency := 1;
     p_last_seen := now;
     p_solution :=
       Some (mk_solution "parameter_adjust"
               (Some (revert_parameters param_diff)) None
               "Revert parameter changes that may have caused failure" None);
     p_severity := None; p_confidence := None; p_error_type := None;
     p_contexts := None; p_indicator := None; p_success_rate := None;
     p_build_params := None; p_environment := None;
     p_duration_range := None;
     p_parameter_changes := Some param_diff;
     p_success_build := Some (build_number (build_info latest_success));
     p_failure_build := Some (build_number (build_info analysis)) |}.

Definition _correlate_failure_with_success (now : Z) (analysis : BuildAnalysis)
    (w : World) : World :=
  let job_name := job_name (build_info analysis) in
  match successful_analyses w analysis with
  | [] => w
  | first :: others =>
      let latest_success := max_by_build_number first others in
      let param_diff :=
        _compare_build_parameters (parameters (build_info analysis))
                                  (parameters (build_info latest_success)) in
      if decide (param_diff = ∅) then w
      else
        set_pattern_database
          (oset job_name
             (default [] (oget job_name (pattern_database w))
              ++ [correlation_pattern now analysis latest_success param_diff])
             (pattern_database w)) w
  end.

Definition update_failure_patterns (now : Z) (analysis : BuildAnalysis)
    (w : World) : World :=
  let job_name := job_name (build_info analysis) in
  let patterns := default [] (oget job_name (pattern_database w)) in
  _correlate_failure_with_success now analysis
    (set_pattern_database
       (oset job_name
          (foldl (record_error_pattern now analysis) patterns
                 (error_patterns analysis))
          (pattern_database w)) w).

Definition learn_from_build (now : Z) (analysis : BuildAnalysis) (w : World)
    : World :=
  if String.eqb (result (build_info analysis)) "SUCCESS"
  then update_success_patterns now analysis w
  else update_failure_patterns now analysis w.

End learner.

(** ** The test-failure scraper: [analyze_test_failures]

    The three regular expressions are matched by hand-written scanners over
    the characters of the log (ASCII text).  Every greedy repetition in
    them either ends its pattern or is followed by a character outside its
    class, so the first greedy attempt is the match the backtracking engine
    returns. *)

Definition in_range (lo hi : N) (c : ascii) : bool :=
  (N.leb lo (N_of_ascii c) && N.leb (N_of_ascii c) hi)%bool.

(** [\d], [\w] and [\s] on ASCII text. *)
Definition is_digit (c : ascii) : bool := in_range 48 57 c.
Definition is_word (c : ascii) : bool :=
  is_digit c || in_range 65 90 c || in_range 97 122 c || Ascii.eqb c "_"%char.
Definition is_space (c : ascii) : bool :=
  in_range 9 13 c || in_range 28 32 c.
(** [[\w\.]] *)
Definition is_word_or_dot (c : ascii) : bool :=
  is_word c || Ascii.eqb c "."%char.

Fixpoint strip_prefix (p s : list ascii) : option (list ascii) :=
  match p, s with
  | [], _ => Some s
  | a :: p', b :: s' => if Ascii.eqb a b then strip_prefix p' s' else None
  | _ :: _, [] => None
  end.

(** The longest prefix of [s] in the class [f], and what follows it. *)
Fixpoint span (f : ascii → bool) (s : list ascii) : list ascii * list ascii :=
  match s with
  | c :: s' =>
      if f c then let '(a, b) := span f s' in (c :: a, b) else ([], s)
  | [] => ([], [])
  end.

(** [class+] followed by the literal [lit]. *)
Definition plus_then (f : ascii → bool) (lit : string) (s : list ascii)
    : option (list ascii * list ascii) :=
  let '(a, rest) := span f s in
  match a with
  | [] => None
  | _ => rest' ← strip_prefix (list_ascii_of_string lit) rest; Some (a, rest')
  end.

(** [int(s)] for a run of digits. *)
Definition int_of_digits (s : list ascii) : Z :=
  foldl (λ acc c, acc * 10 + (Z.of_N (N_of_ascii c) - 48)) 0 s.

(** [re.finditer]: the matches of [m] from left to right, none overlapping.
    [m s] is the captured data and the length of the match at the start of
    [s]; every match is at least one character long. *)
Fixpoint finditer {G} (m : list ascii → option (G * nat)) (skip : nat)
    (s : list ascii) : list G :=
  match s with
  | [] => []
  | _ :: s' =>
      match skip with
      | S k => finditer m k s'
      | O =>
          match m s with
          | Some (g, n) => g :: finditer m (pred n) s'
          | None => finditer m O s'
          end
      end
  end.

Definition consumed (s rest : list ascii) : nat :=
  (length s - length rest)%nat.

(** [Tests run: (\d+), Failures: (\d+), Errors: (\d+), Skipped: (\d+)] *)
Definition match_junit (s : list ascii) : option ((Z * Z * Z) * nat) :=
  s0 ← strip_prefix (list_ascii_of_string "Tests run: ") s;
  '(_, s1) ← plus_then is_digit ", Failures: " s0;
  '(g2, s2) ← plus_then is_digit ", Errors: " s1;
  '(g3, s3) ← plus_then is_digit ", Skipped: " s2;
  '(g4, s4) ← plus_then is_digit "" s3;
  Some ((int_of_digits g2, int_of_digits g3, int_of_digits g4), consumed s s4).

(** [FAIL: ([\w\.]+)] *)
Definition match_fail (s : list ascii) : option (option string * nat) :=
  s0 ← strip_prefix (list_ascii_of_string "FAIL: ") s;
  '(g1, s1) ← plus_then is_word_or_dot "" s0;
  Some (Some (string_of_list_ascii g1), consumed s s1).

(** The repetition [(\n\s+[\w\.]+)*]: the text of its last turn, if any,
    and what follows the repetition. *)
Fixpoint maven_turns (fuel : nat) (last : option (list ascii))
    (s : list ascii) : option (list ascii) * list ascii :=
  match fuel with
  | O => (last, s)
  | S fuel' =>
      match s with
      | c :: s0 =>
          if Ascii.eqb c "010"%char then
            let '(ws, s1) := span is_space s0 in
            let '(name, s2) := span is_word_or_dot s1 in
            match ws, name with
            | _ :: _, _ :: _ => maven_turns fuel' (Some (c :: ws ++ name)) s2
            | _, _ => (last, s)
            end
          else (last, s)
      | [] => (last, s)
      end
  end.

(** [Failed tests:(\n\s+[\w\.]+)*] *)
Definition match_maven (s : list ascii) : option (option string * nat) :=
  s0 ← strip_prefix (list_ascii_of_string "Failed tests:") s;
  let '(g1, s1) := maven_turns (length s0) None s0 in
  Some (string_of_list_ascii <$> g1, consumed s s1).

Definition analyze_test_failures (log : string) : TestResults :=
  let s := list_ascii_of_string log in
  let junit := finditer match_junit O s in
  let failed := finditer match_fail O s ++ finditer match_maven O s in
  {| failed_tests :=
       (λ g : option string,
          VAtom match g with Some name => AStr name | None => ANone end)
       <$> failed;
     error_count := foldl (λ acc g, acc + g.1.2) 0 junit;
     failure_count := foldl (λ acc g, acc + g.1.1) 0 junit;
     skipped_count := foldl (λ acc g, acc + g.2) 0 junit |}.

(** ** The remediation engine *)

(** [v.get(key, default)]: only a dictionary has the method. *)
Definition py_get (v : pyval) (key : string) (default_value : atom)
    : pyres atom :=
  match v with
  | VDict d => Ok (default default_value (oget key d))
  | VAtom (AStr _) =>
      Raise (AttributeError "'str' object has no attribute 'get'")
  | VAtom ANone =>
      Raise (AttributeError "'NoneType' object has no attribute 'get'")
  | VAtom (AInt _) =>
      Raise (AttributeError "'int' object has no attribute 'get'")
  end.

Definition dget (d : odict string atom) (key : string) : atom :=
  default ANone (oget key d).

(** The loop that fills [failure_groups]. *)
Fixpoint group_tests (tests : list pyval)
    (failure_groups : odict atom (list pyval))
    : pyres (odict atom (list pyval)) :=
  match tests with
  | [] => Ok failure_groups
  | test :: rest =>
      group ←r py_get test "package" (AStr "unknown");
      group_tests rest
        (oset group (default [] (oget group failure_groups) ++ [test])
              failure_groups)
  end.

(** The inner loop [for test in tests] of a small group. *)
Fixpoint analyze_each (tests : list pyval) (w : World)
    : World * pyres (list string) :=
  match tests with
  | [] => (w, Ok [])
  | test :: rest =>
      match py_get test "name" ANone with
      | Raise e => (w, Raise e)
      | Ok name =>
          let w1 := emit (EvAnalyzeTestFailure (py_str name)) w in
          match analyze_each rest w1 with
          | (w2, Ok actions) =>
              (w2, Ok (("Analyzing failure in " +:+ py_str name) :: actions))
          | (w2, Raise e) => (w2, Raise e)
          end
      end
  end.

(** The loop [for group, tests in failure_groups.items()]. *)
Fixpoint handle_groups (groups : odict atom (list pyval)) (w : World)
    : World * pyres (list string) :=
  match groups with
  | [] => (w, Ok [])
  | (group, tests) :: rest =>
      let '(w1, here) :=
        if (3 <? length tests)%nat then
          (emit (EvCheckTestEnvironment (py_str group)) w,
           Ok ["Multiple failures in " +:+ py_str group
               +:+ " - checking environment"])
        else analyze_each tests w in
      match here with
      | Raise e => (w1, Raise e)
      | Ok actions =>
          match handle_groups rest w1 with
          | (w2, Ok actions') => (w2, Ok (actions ++ actions'))
          | (w2, Raise e) => (w2, Raise e)
          end
      end
  end.

Definition handle_test_failures (analysis : BuildAnalysis)
    (test_results : TestResults) (w : World) : World * pyres string :=
  match failed_tests test_results with
  | [] => (w, Ok "No test failures to handle")
  | failed =>
      match group_tests failed [] with
      | Raise e => (w, Raise e)
      | Ok failure_groups =>
          match handle_groups failure_groups w with
          | (w', Ok actions) => (w', Ok (join "; " actions))
          | (w', Raise e) => (w', Raise e)
          end
      end
  end.

Definition dependency_actions (issue : odict string atom) : list string :=
  if decide (dget issue "type" = AStr "missing") then
    ("Missing dependency: " +:+ py_str (dget issue "name"))
    :: (if py_truthy (dget issue "version")
        then ["Attempting to install version "
              +:+ py_str (dget issue "version")]
        else [])
  else if decide (dget issue "type" = AStr "version_conflict") then
    ("Version conflict in " +:+ py_str (dget issue "name"))
    :: (if py_truthy (dget issue "resolution")
        then ["Suggested resolution: " +:+ py_str (dget issue "resolution")]
        else [])
  else [].

Definition handle_dependency_issues (analysis : BuildAnalysis)
    (issues : list (odict string atom)) : string :=
  match issues ≫= dependency_actions with
  | [] => "No dependency issues to handle"
  | actions => join "; " actions
  end.

Definition compilation_actions (issue : odict string atom) : list string :=
  let issue_type := default (AStr "unknown") (oget "type" issue) in
  if decide (issue_type = AStr "syntax_error") then
    ["Syntax error in " +:+ py_str (dget issue "file") +:+ ": "
     +:+ py_str (dget issue "message")]
  else if decide (issue_type = AStr "type_error") then
    ["Type error: " +:+ py_str (dget issue "message")]
  else if decide (issue_type = AStr "import_error") then
    ["Import error: " +:+ py_str (dget issue "message")]
  else [].

Definition handle_compilation_issues (analysis : BuildAnalysis)
    (issues : list (odict string atom)) : string :=
  match issues ≫= compilation_actions with
  | [] => "No compilation issues to handle"
  | actions => join "; " actions
  end.

Definition mk_action (type pattern action result : option string)
    (details : option Details) : ActionRecord :=
  {| a_type := type; a_pattern := pattern; a_action := action;
     a_result := result; a_details := details; a_timestamp := 0 |}.

(** [_record_action]: the action is stamped and appended under the key. *)
Definition _record_action (now : Z) (build_key : string)
    (action : ActionRecord) (w : World) : World :=
  let stamped :=
    {| a_type := a_type action; a_pattern := a_pattern action;
       a_action := a_action action; a_result := a_result action;
       a_details := a_details action; a_timestamp := now |} in
  set_action_history
    (oset build_key
       (default [] (oget build_key (action_history w)) ++ [stamped])
       (action_history w)) w.

(** [not solution]: [None] or an empty dictionary. *)
Definition solution_is_empty (solution : option Solution) : bool :=
  match solution with
  | None => true
  | Some s =>
      match s_type s, s_parameters s, s_message s, s_reason s,
            s_max_retries s with
      | None, None, None, None, None => true
      | _, _, _, _, _ => false
      end
  end.

Section remediation.
Context (ext : Externals).

Definition retry_build (analysis : BuildAnalysis) (w : World)
    : World * string :=
  let job := job_name (build_info analysis) in
  let ps := parameters (build_info analysis) in
  (emit (EvBuildJob job ps) w,
   match jenkins_build_job ext job ps with
   | None => "Build retried"
   | Some e => "Retry failed: " +:+ e
   end).

(** [new_params.update(adjustments)]: the adjustments win. *)
Definition adjust_build_parameters (analysis : BuildAnalysis)
    (adjustments : params) (w : World) : World * string :=
  let job := job_name (build_info analysis) in
  let new_params := adjustments ∪ parameters (build_info analysis) in
  (emit (EvBuildJob job new_params) w,
   match jenkins_build_job ext job new_params with
   | None =>
       "Build retried with adjusted parameters: " +:+ repr_params ext adjustments
   | Some e => "Parameter adjustment failed: " +:+ e
   end).

Definition notify_team (analysis : BuildAnalysis) (message : option string)
    (w : World) : World * string :=
  (emit (EvNotifyTeam (job_name (build_info analysis)) message) w,
   "Team notified").

Definition apply_known_solution (now : Z) (pattern : PatternRecord)
    (analysis : BuildAnalysis) (w : World) : World * string :=
  let build_key :=
    build_key (job_name (build_info analysis))
              (build_number (build_info analysis)) in
  if solution_is_empty (p_solution pattern) then (w, "No known solution")
  else
    let type := p_solution pattern ≫= s_type in
    let '(w1, result) :=
      if decide (type = Some "retry") then
        prod_map id Some (retry_build analysis w)
      else if decide (type = Some "parameter_adjust") then
        prod_map id Some
          (adjust_build_parameters analysis
             (default ∅ (p_solution pattern ≫= s_parameters)) w)
      else if decide (type = Some "notification") then
        prod_map id Some
          (notify_team analysis (p_solution pattern ≫= s_message) w)
      else (w, None) in
    (_record_action now build_key
       (mk_action type (Some (p_pattern pattern)) None result None) w1,
     match result with
     | Some r => r
     | None =>
         "Unknown solution type: "
         +:+ match type with Some t => t | None => "None" end
     end).

(** The loop [for match in matches] of [handle_failure]. *)
Fixpoint apply_matches (now : Z) (build_key : string)
    (analysis : BuildAnalysis) (matches : list PatternRecord) (w : World)
    : World * list string :=
  match matches with
  | [] => (w, [])
  | pattern :: rest =>
      let '(w1, action) := apply_known_solution now pattern analysis w in
      let w2 :=
        _record_action now build_key
          (mk_action (Some "pattern_match") (Some (p_pattern pattern))
                     (Some action) None None) w1 in
      let '(w3, actions) := apply_matches now build_key analysis rest w2 in
      (w3, action :: actions)
  end.

Definition description_of (analysis : BuildAnalysis)
    (actions_taken : list string) : string :=
  "Build Analysis Report:" +:+ String "010" ""
  +:+ "- Severity: " +:+ severity analysis +:+ String "010" ""
  +:+ "- Confidence: " +:+ str_float ext (confidence analysis)
  +:+ String "010" ""
  +:+ "- Actions Taken: " +:+ join ", " actions_taken +:+ String "010" ""
  +:+ "- Recommendations: " +:+ join ", " (recommendations analysis).

(** [handle_failure]; an exception leaves it with the world as mutated so
    far. *)
Definition handle_failure (now : Z) (analysis : BuildAnalysis) (w : World)
    : World * pyres unit :=
  let job := job_name (build_info analysis) in
  let number := build_number (build_info analysis) in
  let build_key := build_key job number in
  match match_known_patterns w analysis with
  | Raise e => (w, Raise e)
  | Ok matches =>
  let '(w1, actions1) := apply_matches now build_key analysis matches w in
  match console_log (build_info analysis) with
  | None => (w1, Raise (TypeError "expected string or bytes-like object"))
  | Some log =>
  let test_results := analyze_test_failures log in
  match analyze_build_time ext log with
  | Raise e => (w1, Raise e)
  | Ok _ =>
  match analyze_dependency_issues ext log with
  | Raise e => (w1, Raise e)
  | Ok dependency_issues =>
  match analyze_compilation_issues ext log with
  | Raise e => (w1, Raise e)
  | Ok compilation_issues =>
  match
    match failed_tests test_results with
    | [] => (w1, Ok [])
    | _ =>
        match handle_test_failures analysis test_results w1 with
        | (w', Raise e) => (w', Raise e)
        | (w', Ok action) =>
            (_record_action now build_key
               (mk_action (Some "test_failure") None (Some action) None
                          (Some (DTests test_results))) w',
             Ok [action])
        end
    end
  with
  | (w2, Raise e) => (w2, Raise e)
  | (w2, Ok actions2) =>
  let '(w3, actions3) :=
    match dependency_issues with
    | [] => (w2, [])
    | _ =>
        let action := handle_dependency_issues analysis dependency_issues in
        (_record_action now build_key
           (mk_action (Some "dependency_issue") None (Some action) None
                      (Some (DIssues dependency_issues))) w2,
         [action])
    end in
  let '(w4, actions4) :=
    match compilation_issues with
    | [] => (w3, [])
    | _ =>
        let action := handle_compilation_issues analysis compilation_issues in
        (_record_action now build_key
           (mk_action (Some "compilation_issue") None (Some action) None
                      (Some (DIssues compilation_issues))) w3,
         [action])
    end in
  let actions_taken := actions1 ++ actions2 ++ actions3 ++ actions4 in
  let description := description_of analysis actions_taken in
  let w5 := emit (EvUpdateBuildDescription job number description) w4 in
  match jenkins_update_build_description ext job number description with
  | None => (w5, Ok ())
  | Some e =>
      (emit (EvLogError ("Failed to update build description: " +:+ e)) w5,
       Ok ())
  end
  end end end end end end.

(** [analyze_and_act]; every exception is caught and logged. *)
Definition analyze_and_act (now : Z) (job_name : string) (build_number : Z)
    (w : World) : World :=
  match analyzer_analyze_build ext job_name build_number with
  | Raise e => emit (EvLogError "Error analyzing build") w
  | Ok analysis =>
      let cache_key := build_key job_name build_number in
      let w1 :=
        set_analysis_cache (oset cache_key analysis (analysis_cache w)) w in
      let '(w2, handled) :=
        if String.eqb (result (build_info analysis)) "SUCCESS"
        then (w1, Ok ())
        else handle_failure now analysis w1 in
      match handled with
      | Raise e => emit (EvLogError "Error analyzing build") w2
      | Ok _ =>
          if learning_enabled w2 then learn_from_build ext now analysis w2
          else w2
      end
  end.

End remediation.

(** ** Vocabulary of the properties *)

(** The patterns of a job, [pattern_database.get(job, [])]. *)
Definition job_patterns (job : string) (w : World) : list PatternRecord :=
  default [] (oget job (pattern_database w)).

(** The first failure pattern of a key, as the lookup loop finds it. *)
Definition find_failure (key : string) (patterns : list PatternRecord)
    : option PatternRecord :=
  snd <$> list_find (is_failure_with key) patterns.

(** [error_pattern.get('pattern', '')] *)
Definition pattern_key (error_pattern : ErrorPattern) : string :=
  default "" (ep_pattern error_pattern).

(** How many entries of [analysis.error_patterns] carry the key. *)
Definition occurrences (key : string) (analysis : BuildAnalysis) : nat :=
  length (filter (λ ep, pattern_key ep = key) (error_patterns analysis)).

(** Frequency and context history of the pattern a lookup returned; a
    pattern that does not exist yet counts for nothing. *)
Definition frequency_of (found : option PatternRecord) : Z :=
  from_option p_frequency 0 found.

Definition contexts_of (found : option PatternRecord) : list Context :=
  from_option (λ r, default [] (p_contexts r)) [] found.

(** How many failure patterns of a list carry the key. *)
Definition count_failures (key : string) (patterns : list PatternRecord) : nat :=
  length (filter (is_failure_with key) patterns).

(** What one entry, then one analysis, does to the failure pattern of
    [key]. *)
Definition observe_entry (now : Z) (analysis : BuildAnalysis) (key : string)
    (found : option PatternRecord) (error_pattern : ErrorPattern)
    : option PatternRecord :=
  if decide (pattern_key error_pattern = key) then
    Some match found with
         | Some existing => update_failure_record now analysis existing
         | None => new_failure_pattern now analysis error_pattern
         end
  else found.

Definition observe_analysis (now : Z) (analysis : BuildAnalysis) (key : string)
    (found : option PatternRecord) : option PatternRecord :=
  foldl (observe_entry now analysis key) found (error_patterns analysis).

(** A history [old] after the entries [seen] were appended one by one, the
    slice [[-10:]] taken after each. *)
Definition bounded_append (old seen : list Context) : list Context :=
  match seen with
  | [] => old
  | _ => lastn 10 (old ++ seen)
  end.

(** A run of [update_failure_patterns]: each call comes with its clock and
    with the analysis cache it finds. *)
Definition FailureCall : Type := Z * odict string BuildAnalysis * BuildAnalysis.

Definition observe_failures (ext : Externals) (calls : list FailureCall)
    (w : World) : World :=
  foldl (λ w (c : FailureCall),
           update_failure_patterns ext c.1.1 c.2 (set_analysis_cache c.1.2 w))
        w calls.

(** The context entries the calls append to the failure pattern [key] of
    [job], oldest first. *)
Definition contexts_seen (job key : string) (calls : list FailureCall)
    : list Context :=
  calls ≫= (λ c : FailureCall,
              if decide (job_name (build_info c.2) = job)
              then replicate (occurrences key c.2) (context_of c.2)
              else []).

Definition is_correlation (r : PatternRecord) : Prop :=
  p_type r = Some "correlation".

(** Two calls of [update_failure_patterns] with the same analysis; the
    cache may change in between. *)
Definition record_failure_twice (ext : Externals) (now1 now2 : Z)
    (cache2 : odict string BuildAnalysis) (analysis : BuildAnalysis)
    (w : World) : World :=
  update_failure_patterns ext now2 analysis
    (set_analysis_cache cache2 (update_failure_patterns ext now1 analysis w)).

(** Every entry of [analysis.error_patterns] has the key ['pattern']. *)
Definition well_keyed (analysis : BuildAnalysis) : Prop :=
  Forall (λ ep, is_Some (ep_pattern ep)) (error_patterns analysis).

(** How many entries of a batch of analyses carry the key. *)
Definition total_occurrences (key : string) (analyses : list BuildAnalysis)
    : nat :=
  sum_list (occurrences key <$> analyses).

(** The patterns of a list that carry the key. *)
Definition with_pattern (key : string) (patterns : list PatternRecord)
    : list PatternRecord :=
  filter (λ r, p_pattern r = key) patterns.

(** The invariant of [error_counts]: distinct keys, positive counts. *)
Definition counts_ok (counts : odict string Z) : Prop :=
  NoDup (okeys counts) ∧ Forall (λ e, 0 < e.2) counts.

(** The analysis [_correlate_failure_with_success] compares with. *)
Definition latest_success (w : World) (analysis : BuildAnalysis)
    : option BuildAnalysis :=
  match successful_analyses w analysis with
  | [] => None
  | first :: others => Some (max_by_build_number first others)
  end.

(** An entry of ['failed_tests'] that is not a dictionary. *)
Definition is_atom (test : pyval) : Prop := ∃ a, test = VAtom a.

(** [self.analysis_cache[cache_key] = analysis] in [analyze_and_act]. *)
Definition cache_analysis (job : string) (number : Z) (analysis : BuildAnalysis)
    (w : World) : World :=
  set_analysis_cache
    (oset (build_key job number) analysis (analysis_cache w)) w.





(** The first success pattern of a key, as the lookup loop finds it. *)
Definition find_success (key : string) (patterns : list PatternRecord)
    : option PatternRecord :=
  snd <$> list_find (is_success_with key) patterns.

(** The operations on the pattern store, and what else changes the state
    they read: an analysis entering the cache. *)
Inductive StoreOp : Type :=
  | RecordFailure (now : Z) (analysis : BuildAnalysis)
  | RecordSuccess (now : Z) (analysis : BuildAnalysis)
  | RefreshPatterns (now : Z)
  | CacheAnalysis (job : string) (number : Z) (analysis : BuildAnalysis).

Definition run_op (ext : Externals) (w : World) (op : StoreOp) : World :=
  match op with
  | RecordFailure now analysis => update_failure_patterns ext now analysis w
  | RecordSuccess now analysis => update_success_patterns ext now analysis w
  | RefreshPatterns now => update_pattern_database_once now w
  | CacheAnalysis job number analysis => cache_analysis job number analysis w
  end.

Definition run_ops (ext : Externals) (ops : list StoreOp) (w : World) : World :=
  foldl (run_op ext) w ops.

(** The shape the two learners share: the first pattern that [P] files
    under the key of an entry is updated in place, or a new one is
    appended; and what that does to the pattern a lookup of [k] finds. *)
Section upsert.
Context {R E : Type} (key : E → string) (P : string → R → Prop)
  `{!∀ k r, Decision (P k r)} (upd : R → R) (mk : E → R).

Definition upsert (rs : list R) (e : E) : list R :=
  match list_find (P (key e)) rs with
  | Some (i, r) => <[i := upd r]> rs
  | None => rs ++ [mk e]
  end.

Definition upsert_found (k : string) (found : option R) (e : E) : option R :=
  if decide (key e = k) then Some (from_option upd (mk e) found) else found.
End upsert.



(** ** Sample inputs *)

(** Collaborators that always succeed and report nothing. *)
Definition quiet_externals : Externals :=
  {| py_hash_params := λ _, 0;
     py_hash_diff := λ _, 0;
     repr_params := λ _, "{}";
     str_float := λ _, "0.5";
     jenkins_build_job := λ _ _, None;
     jenkins_update_build_description := λ _ _ _, None;
     analyzer_analyze_build := λ _ _, Raise (ExternalError "no analyzer");
     analyze_build_time := λ _, Ok ();
     analyze_dependency_issues := λ _, Ok [];
     analyze_compilation_issues := λ _, Ok [] |}.

Definition sample_build (job : string) (number : Z) (res : string)
    (ps : params) (log : string) : BuildInfo :=
  {| job_name := job; build_number := number; result := res;
     bi_timestamp := 0; duration := 1000; parameters := ps;
     url := "http://ci/" +:+ job; console_log := Some log |}.

Definition error_of (pattern : string) : ErrorPattern :=
  {| ep_pattern := Some pattern; ep_type := None; ep_context := None |}.

Definition sample_analysis (b : BuildInfo) (patterns : list string)
    (sev : string) : BuildAnalysis :=
  {| build_info := b; last_success := None;
     error_patterns := error_of <$> patterns;
     differences := []; recommendations := [];
     severity := sev; confidence := 0.5%float; timestamp := 0 |}.

Definition empty_world : World :=
  {| pattern_database := []; analysis_cache := []; action_history := [];
     learning_enabled := true; events := [] |}.

(** A failure pattern as [update_failure_patterns] creates it. *)
Definition sample_failure (pattern sev : string) (last_seen : Z)
    : PatternRecord :=
  {| p_type := Some "failure"; p_pattern := pattern; p_frequency := 1;
     p_last_seen := last_seen; p_solution := None;
     p_severity := Some sev; p_confidence := Some 0.5%float;
     p_error_type := Some "unknown"; p_contexts := Some [];
     p_indicator := None; p_success_rate := None; p_build_params := None;
     p_environment := None; p_duration_range := None;
     p_parameter_changes := None; p_success_build := None;
     p_failure_build := None |}.

(** Twelve failing builds of one job with the same error pattern. *)
Definition twelve_calls : list FailureCall :=
  (λ n : Z,
     (n, [], sample_analysis (sample_build "job" n "FAILURE" ∅ "")
               ["E"] "LOW"))
  <$> [1; 2; 3; 4; 5; 6; 7; 8; 9; 10; 11; 12].

(** An analysis that lists the same error pattern twice. *)
Definition doubled_analysis : BuildAnalysis :=
  sample_analysis (sample_build "job" 5 "FAILURE" ∅ "") ["E"; "E"] "LOW".

(** A store with one failure pattern ["E"] for ["job"]. *)
Definition world_with_failure (sev : string) (last_seen : Z) : World :=
  set_pattern_database [("job", [sample_failure "E" sev last_seen])] empty_world.

(** Failing build 5 of ["job"] with the error pattern ["E"]. *)
Definition failing_analysis (sev : string) : BuildAnalysis :=
  sample_analysis (sample_build "job" 5 "FAILURE" ∅ "") ["E"] sev.

(** Three analyses of distinct builds, each listing ["E"] twice. *)
Definition three_doubled : list BuildAnalysis :=
  (λ n : Z,
     sample_analysis (sample_build "job" n "FAILURE" ∅ "") ["E"; "E"] "LOW")
  <$> [1; 2; 3].

(** The store after a successful build 4 of ["job"] was learnt: one success
    pattern, ["timing_normal"]. *)
Definition world_after_success : World :=
  update_success_patterns quiet_externals 1
    (sample_analysis (sample_build "job" 4 "SUCCESS" ∅ "") [] "LOW")
    empty_world.

(** A failing build whose error pattern reads ["timing_normal"]. *)
Definition timing_analysis : BuildAnalysis :=
  sample_analysis (sample_build "job" 5 "FAILURE" ∅ "") ["timing_normal"] "LOW".

(** Build 7 of ["deploy"] succeeded with [env = prod], build 8 fails with
    [env = staging]; [branch] is [main] in both. *)
Definition prod_params : params :=
  {[ "env" := AStr "prod"; "branch" := AStr "main" ]}.
Definition staging_params : params :=
  {[ "env" := AStr "staging"; "branch" := AStr "main" ]}.
Definition deploy_success : BuildAnalysis :=
  sample_analysis (sample_build "deploy" 7 "SUCCESS" prod_params "") [] "LOW".
Definition deploy_failure : BuildAnalysis :=
  sample_analysis (sample_build "deploy" 8 "FAILURE" staging_params "")
    ["E"] "HIGH".
Definition deploy_world : World :=
  set_analysis_cache
    [(build_key "deploy" 7, deploy_success);
     (build_key "deploy" 8, deploy_failure)] empty_world.

Definition newline : string := String "010" "".

(** A console log with four failing tests of the package [pkg.A]. *)
Definition four_failures_log : string :=
  "FAIL: pkg.A.t1" +:+ newline +:+ "FAIL: pkg.A.t2" +:+ newline
  +:+ "FAIL: pkg.A.t3" +:+ newline +:+ "FAIL: pkg.A.t4" +:+ newline.

(** Failing build 5 of ["job"], with that log and the known pattern ["E"]. *)
Definition four_failures_analysis : BuildAnalysis :=
  sample_analysis (sample_build "job" 5 "FAILURE" ∅ four_failures_log)
    ["E"] "LOW".

(** The same four tests as dictionaries, the shape [handle_test_failures]
    expects. *)
Definition four_failures_dicts : TestResults :=
  {| failed_tests :=
       (λ name, VDict [("name", AStr name); ("package", AStr "pkg.A")])
       <$> ["pkg.A.t1"; "pkg.A.t2"; "pkg.A.t3"; "pkg.A.t4"];
     error_count := 0; failure_count := 0; skipped_count := 0 |}.

(** Collaborators whose analyzer returns the given analysis. *)
Definition externals_returning (analysis : BuildAnalysis) : Externals :=
  {| py_hash_params := py_hash_params quiet_externals;
     py_hash_diff := py_hash_diff quiet_externals;
     repr_params := repr_params quiet_externals;
     str_float := str_float quiet_externals;
     jenkins_build_job := jenkins_build_job quiet_externals;
     jenkins_update_build_description :=
       jenkins_update_build_description quiet_externals;
     analyzer_analyze_build := λ _ _, Ok analysis;
     analyze_build_time := analyze_build_time quiet_externals;
     analyze_dependency_issues := analyze_dependency_issues quiet_externals;
     analyze_compilation_issues := analyze_compilation_issues quiet_externals |}.

(** An unstable build 6 of ["job"] with the error pattern ["E"]. *)
Definition unstable_analysis : BuildAnalysis :=
  sample_analysis (sample_build "job" 6 "UNSTABLE" ∅ "") ["E"] "MEDIUM".

(** A successful build whose log says so. *)
Definition passing_analysis (number : Z) : BuildAnalysis :=
  sample_analysis (sample_build "job" number "SUCCESS" ∅ "BUILD SUCCESSFUL")
    [] "LOW".

(** Three failing builds with the same error, a successful one seen twice,
    and a refresh of the pattern database in between. *)
Definition sample_ops : list StoreOp :=
  let failing n :=
    sample_analysis (sample_build "job" n "FAILURE" ∅ "") ["E"] "LOW" in
  [CacheAnalysis "job" 1 (failing 1); RecordFailure 1 (failing 1);
   CacheAnalysis "job" 2 (failing 2); RecordFailure 2 (failing 2);
   CacheAnalysis "job" 3 (passing_analysis 3);
   RecordSuccess 3 (passing_analysis 3);
   CacheAnalysis "job" 4 (failing 4); RecordFailure 4 (failing 4);
   RefreshPatterns 5;
   CacheAnalysis "job" 6 (passing_analysis 6);
   RecordSuccess 6 (passing_analysis 6);
   RefreshPatterns 7].

(** ** Further vocabulary and sample inputs *)

(** The diff entry seen from the other build: added and removed trade
    places, old and new values too. *)
Definition flip_entry (e : DiffEntry) : DiffEntry :=
  {| d_type := if String.eqb (d_type e) "added" then "removed"
               else if String.eqb (d_type e) "removed" then "added"
               else d_type e;
     d_old := d_new e;
     d_new := d_old e |}.

(** A cache with an entry of exactly seven days and one a microsecond
    older, at time [days 10]. *)
Definition week_old_analysis (age : Z) : BuildAnalysis :=
  {| build_info := sample_build "job" 1 "FAILURE" ∅ "";
     last_success := None; error_patterns := []; differences := [];
     recommendations := []; severity := "LOW"; confidence := 0.5%float;
     timestamp := days 10 - age |}.

Definition week_old_world : World :=
  set_analysis_cache
    [("job#1", week_old_analysis (days 7));
     ("job#2", week_old_analysis (days 7 + 1))] empty_world.

(** How many correlations [_correlate_failure_with_success] appends: one
    when a prior successful build is cached with other parameters. *)
Definition correlations_due (w : World) (analysis : BuildAnalysis) : nat :=
  match latest_success w analysis with
  | Some s =>
      if decide (parameters (build_info analysis) = parameters (build_info s))
      then 0%nat else 1%nat
  | None => 0%nat
  end.

(** The error types [_derive_initial_solution] has a rule for. *)
Definition typed_errors : list string :=
  ["test_failure"; "dependency_issue"; "compilation_error"].

(** An out-of-memory error that also mentions a timeout. *)
Definition timeout_error : ErrorPattern :=
  {| ep_pattern := Some "java.lang.OutOfMemoryError: OOM after Build TimeOut";
     ep_type := Some "runtime"; ep_context := None |}.

(** The first character of a string. *)
Definition head_char (s : string) : option ascii :=
  match s with
  | String c _ => Some c
  | EmptyString => None
  end.

(** The keys of the indicators of a successful build. *)
Definition indicator_keys (ext : Externals) (analysis : BuildAnalysis)
    : list string :=
  i_pattern <$> _extract_success_indicators ext analysis.

(** The cache holds, under the key prefix of [job], an analysis with an
    entry that lacks the key ['pattern']. *)
Definition malformed_for (job : string) (cache : odict string BuildAnalysis)
    : Prop :=
  Exists (λ e, startswith e.1 (job +:+ "#") = true ∧ ¬ well_keyed e.2) cache.

(** An entry without the key ['pattern']. *)
Definition unkeyed_error : ErrorPattern :=
  {| ep_pattern := None; ep_type := Some "test_failure"; ep_context := None |}.

(** A failing build 9 of ["job"] whose analysis has such an entry. *)
Definition malformed_analysis : BuildAnalysis :=
  {| build_info := sample_build "job" 9 "FAILURE" ∅ "";
     last_success := None; error_patterns := [unkeyed_error];
     differences := []; recommendations := []; severity := "LOW";
     confidence := 0.5%float; timestamp := 0 |}.

(** The store holds an old failure pattern of ["job"], the cache that
    analysis. *)
Definition malformed_world : World :=
  set_analysis_cache [("job#9", malformed_analysis)]
    (world_with_failure "HIGH" 0).

(** The actions recorded for a build, [action_history.get(key, [])]. *)
Definition actions_of (key : string) (w : World) : list ActionRecord :=
  default [] (oget key (action_history w)).

(** [w'] differs from [w] only by actions appended to the history and by
    calls appended to the trace: the pattern database, the analysis cache
    and the learning flag are the same. *)
Definition only_appends (w w' : World) : Prop :=
  pattern_database w' = pattern_database w
  ∧ analysis_cache w' = analysis_cache w
  ∧ learning_enabled w' = learning_enabled w
  ∧ (∀ key, actions_of key w `prefix_of` actions_of key w')
  ∧ events w `prefix_of` events w'.

(** An answer of the HTTP interface: a payload or an error status. *)
Inductive http (A : Type) : Type :=
  | Http200 (payload : A)
  | HttpError (status : Z) (detail : string).
Arguments Http200 {A} payload.
Arguments HttpError {A} status detail.

(** [get_actions] of [app/main.py]: the build and the actions taken for
    it, or 404 when the build was never analysed. The ['timestamp'] of the
    answer, the time of the request, is left out. *)
Definition get_actions (job_name : string) (build_number : Z) (w : World)
    : http (BuildInfo * list ActionRecord) :=
  let cache_key := build_key job_name build_number in
  match oget cache_key (analysis_cache w) with
  | None => HttpError 404 "Build analysis not found"
  | Some analysis => Http200 (build_info analysis, actions_of cache_key w)
  end.

(** What [handle_failure] does last: the description is posted, and a
    failure to post is logged. *)
Definition description_events (ext : Externals) (analysis : BuildAnalysis)
    (actions_taken : list string) : list Event :=
  let job := job_name (build_info analysis) in
  let number := build_number (build_info analysis) in
  let description := description_of ext analysis actions_taken in
  EvUpdateBuildDescription job number description
  :: match jenkins_update_build_description ext job number description with
     | None => []
     | Some e => [EvLogError ("Failed to update build description: " +:+ e)]
     end.

(** The package and the name [handle_test_failures] reads off a test. *)
Definition package_of (test : odict string atom) : atom :=
  default (AStr "unknown") (oget "package" test).
Definition name_of (test : odict string atom) : atom := dget test "name".

(** The issue dictionaries of the two scrapers carry these types. *)
Definition dependency_typed (issue : odict string atom) : Prop :=
  dget issue "type" = AStr "dependency_error".
Definition compilation_typed (issue : odict string atom) : Prop :=
  dget issue "type" = AStr "compilation_error".

(** An issue as [analyze_dependency_issues] builds it. *)
Definition sample_dependency_issue : odict string atom :=
  [("type", AStr "dependency_error");
   ("message", AStr "Could not find artifact a:b:1 in central");
   ("artifact", AStr "a:b:1")].

(** An issue as [analyze_compilation_issues] builds it. *)
Definition sample_compilation_issue : odict string atom :=
  [("type", AStr "compilation_error");
   ("message", AStr "Foo.java:[3,7] error: missing symbol");
   ("line", AInt 3); ("column", AInt 7); ("error", AStr "missing symbol")].

(** Two failing tests of [pkg.B], as dictionaries. *)
Definition two_failures : list (odict string atom) :=
  [[("name", AStr "t1"); ("package", AStr "pkg.B")];
   [("name", AStr "t2"); ("package", AStr "pkg.B")]].

(** The empty world with learning switched off. *)
Definition learning_off_world : World :=
  {| pattern_database := []; analysis_cache := []; action_history := [];
     learning_enabled := false; events := [] |}.

(** ** The poll loop of a job: [monitor_job] *)

(** The ['lastBuild'] entry of a [get_job_info] reply, as the loop reads it:
    absent, null (the reply for a job that never built) or a dictionary
    whose ['number'] is absent or an integer. *)
Inductive LastBuild : Type :=
  | LbAbsent
  | LbNull
  | LbDict (number : option Z).

(** [job_info.get('lastBuild', {}).get('number')]: the default only stands
    in for an absent entry, so a null entry is asked for its [get]. *)
Definition latest_build_of (last : LastBuild) : pyres (option Z) :=
  match last with
  | LbAbsent => Ok None
  | LbNull =>
      Raise (AttributeError "'NoneType' object has no attribute 'get'")
  | LbDict number => Ok number
  end.

(** [latest_build and latest_build != last_build] *)
Definition is_new_build (latest_build last_build : option Z) : bool :=
  match latest_build with
  | None => false
  | Some n => negb (n =? 0) && negb (bool_decide (latest_build = last_build))
  end.

Section monitor.
Variable ext : Externals.

(** One turn of the loop of [monitor_job], given what [get_job_info]
    returned or raised: the remembered build, the world and the seconds
    slept afterwards. The logged line is kept without the text of the
    exception. *)
Definition monitor_job_poll (now : Z) (job_name : string)
    (reply : pyres LastBuild) (last_build : option Z) (w : World)
    : option Z * World * Z :=
  match latest ←r reply; latest_build_of latest with
  | Raise e =>
      (last_build, emit (EvLogError ("Error monitoring job " +:+ job_name)) w,
       300)
  | Ok latest_build =>
      match latest_build with
      | Some n =>
          if is_new_build latest_build last_build
          then (latest_build, analyze_and_act ext now job_name n w, 30)
          else (last_build, w, 30)
      | None => (last_build, w, 30)
      end
  end.

(** The loop over a finite run of polls, each with its time and reply. *)
Fixpoint monitor_job_from (polls : list (Z * pyres LastBuild))
    (job_name : string) (last_build : option Z) (w : World)
    : option Z * World :=
  match polls with
  | [] => (last_build, w)
  | (now, reply) :: rest =>
      let '(last_build', w', _) :=
        monitor_job_poll now job_name reply last_build w in
      monitor_job_from rest job_name last_build' w'
  end.

(** [monitor_job] starts with [last_build = None]. *)
Definition monitor_job (polls : list (Z * pyres LastBuild))
    (job_name : string) (w : World) : option Z * World :=
  monitor_job_from polls job_name None w.

End monitor.

(** The replies [reply] at the times [nows]. *)
Definition polls_at (nows : list Z) (reply : pyres LastBuild)
    : list (Z * pyres LastBuild) :=
  (λ now, (now, reply)) <$> nows.

(** The world after [n] more log entries [e]. *)
Definition logged (n : nat) (e : Event) (w : World) : World :=
  Nat.iter n (emit e) w.

(** ** Scanning a log for error lines: [extract_error_patterns] *)

(** The line boundaries of [str.splitlines] among the code points below
    256: LF, VT, FF, CR, FS, GS, RS and NEL. *)
Definition is_line_boundary (c : ascii) : bool :=
  let n := N_of_ascii c in
  (N.eqb n 10 || N.eqb n 11 || N.eqb n 12 || N.eqb n 13
   || N.eqb n 28 || N.eqb n 29 || N.eqb n 30 || N.eqb n 133)%bool.

(** [log.splitlines()], with [line] the characters read since the last
    boundary: CR LF counts as one boundary, and no empty line follows the
    last boundary. *)
Fixpoint splitlines_from (line log : string) : list string :=
  match log with
  | EmptyString => if String.eqb line "" then [] else [line]
  | String c rest =>
      if is_line_boundary c then
        line ::
        match rest with
        | String c' rest' =>
            if (Ascii.eqb c "013" && Ascii.eqb c' "010")%bool
            then splitlines_from "" rest'
            else splitlines_from "" rest
        | EmptyString => []
        end
      else splitlines_from (line +:+ String c "") rest
  end.

Definition splitlines (log : string) : list string := splitlines_from "" log.

(** The list [patterns], each with [re.search(pattern, line)]: a trailing
    [.*] also matches nothing, and [(?i)] folds the letter case. *)
Definition error_line_patterns : list (string → bool) :=
  [ (λ line, contains "error:" (lower line));
    (λ line, contains "exception:" (lower line));
    (λ line, contains "failure:" (lower line));
    (λ line, contains "failed" (lower line));
    (λ line, contains "BUILD FAILED" line);
    (λ line, contains "[ERROR]" line) ].

(** The inner loop [for pattern in patterns], left at the first match. *)
Definition is_error_line (line : string) : bool :=
  existsb (λ search, search line) error_line_patterns.

(** An entry of the list [extract_error_patterns] returns. *)
Record LogError : Type := {
  le_pattern : string;
  le_context : string;
  le_line_number : Z
}.

(** [lines[a:b]] for [0 <= a]. *)
Definition slice {A : Type} (a b : Z) (l : list A) : list A :=
  take (Z.to_nat (b - a)) (drop (Z.to_nat a) l).

(** [lines[start:end]], five lines before and after line [i]. *)
Definition context_lines (lines : list string) (i : Z) : list string :=
  let start := Z.max 0 (i - 5) in
  let end_ := Z.min (Z.of_nat (length lines)) (i + 6) in
  slice start end_ lines.

(** The loop [for i, line in enumerate(lines)], from index [i] on. *)
Fixpoint scan_lines (lines : list string) (i : Z) (rest : list string)
    : list LogError :=
  match rest with
  | [] => []
  | line :: rest' =>
      (if is_error_line line
       then [ {| le_pattern := line;
                 le_context := join newline (context_lines lines i);
                 le_line_number := i + 1 |} ]
       else [])
      ++ scan_lines lines (i + 1) rest'
  end.

Definition extract_error_patterns (log : string) : list LogError :=
  let lines := splitlines log in
  scan_lines lines 0 lines.

(** The lines of a log with their numbers, counted from one. *)
Definition numbered_lines (log : string) : list (Z * string) :=
  imap (λ i line, (Z.of_nat i + 1, line)) (splitlines log).

(** A short Maven log. *)
Definition maven_log : string :=
  "[INFO] compiling" +:+ newline +:+ "[ERROR] Error: BUILD FAILED"
  +:+ String "013" newline +:+ newline +:+ "Tests FAILED" +:+ newline.

(** * Properties *)

(** ** Facts about insertion-ordered dictionaries *)

Section odict_facts.
Context {K V : Type} `{EqDecision K}.
Implicit Types (d : odict K V) (k : K) (v : V).

Lemma oget_oset_eq k v d : oget k (oset k v d) = Some v.
Proof.
  induction d as [|[k' v'] d IH]; simpl.
  - by rewrite decide_True.
  - destruct (decide (k' = k)) as [->|Hne]; simpl.
    + by rewrite decide_True.
    + by rewrite decide_False.
Qed.

Lemma oget_oset_ne k k' v d : k ≠ k' → oget k' (oset k v d) = oget k' d.
Proof.
  intros Hne. induction d as [|[k0 v0] d IH]; simpl.
  - by rewrite decide_False.
  - destruct (decide (k0 = k)) as [->|Hne0]; simpl.
    + by rewrite !decide_False.
    + destruct (decide (k0 = k')); [done | exact IH].
Qed.

Lemma okeys_oset_in k v d :
  is_Some (oget k d) → okeys (oset k v d) = okeys d.
Proof.
  unfold okeys. induction d as [|[k0 v0] d IH]; simpl.
  - by intros [? ?].
  - destruct (decide (k0 = k)) as [->|Hne0]; simpl; [done|].
    intros H. f_equal. by apply IH.
Qed.

Lemma okeys_oset_notin k v d :
  oget k d = None → okeys (oset k v d) = okeys d ++ [k].
Proof.
  unfold okeys. induction d as [|[k0 v0] d IH]; simpl; [done|].
  destruct (decide (k0 = k)) as [->|Hne0]; simpl; [done|].
  intros H. f_equal. by apply IH.
Qed.

Lemma oget_None_notin k d : oget k d = None ↔ k ∉ okeys d.
Proof.
  unfold okeys. induction d as [|[k0 v0] d IH]; simpl.
  - split; [intros _; apply not_elem_of_nil | done].
  - rewrite not_elem_of_cons. destruct (decide (k0 = k)) as [->|Hne0].
    + split; [done | by intros [? _]].
    + rewrite IH. split; [intros Hn; split; [congruence | exact Hn] | intros [_ Hn]; exact Hn].
Qed.

Lemma oget_Some_elem k v d : oget k d = Some v → (k, v) ∈ d.
Proof.
  induction d as [|[k0 v0] d IH]; simpl; [done|].
  destruct (decide (k0 = k)) as [->|Hne0].
  - intros [= ->]. apply list_elem_of_here.
  - intros H. apply list_elem_of_further. by apply IH.
Qed.
End odict_facts.

(** ** Facts about lists: slices, first match, update in place *)

Section list_facts.
Context {A : Type}.
Implicit Types (l m : list A) (x y : A).

Lemma length_lastn n l : length (lastn n l) = (n `min` length l)%nat.
Proof. unfold lastn. rewrite length_drop. lia. Qed.

Lemma lastn_all n l : (length l ≤ n)%nat → lastn n l = l.
Proof.
  unfold lastn. intros Hle.
  by replace (length l - n)%nat with 0%nat by lia.
Qed.

Lemma lastn_app_ge n l m : (n ≤ length m)%nat → lastn n (l ++ m) = lastn n m.
Proof.
  unfold lastn. intros Hle. rewrite length_app, drop_app.
  rewrite drop_ge by lia. simpl. f_equal. lia.
Qed.

(** Slicing after every append keeps what one final slice keeps. *)
Lemma lastn_lastn_app n l m : lastn n (lastn n l ++ m) = lastn n (l ++ m).
Proof.
  destruct (decide (length l ≤ n)%nat) as [Hle|Hgt].
  - by rewrite (lastn_all n l).
  - unfold lastn at 2.
    rewrite <- (take_drop (length l - n) l) at 3.
    rewrite <- (assoc_L (++)).
    symmetry. apply lastn_app_ge.
    rewrite length_app, length_drop. lia.
Qed.

Section find.
Context (P : A → Prop) `{!∀ x, Decision (P x)}.

Lemma list_find_insert_same l i x y :
  list_find P l = Some (i, x) → P y → list_find P (<[i:=y]> l) = Some (i, y).
Proof.
  revert i. induction l as [|z l IH]; intros i; simpl; [done|].
  case_decide as Hz.
  - intros [= <- <-] Hy. simpl. by rewrite decide_True.
  - destruct (list_find P l) as [[j x']|] eqn:Hfind; simpl; [|done].
    intros [= <- <-] Hy. simpl. rewrite decide_False by done.
    by rewrite (IH j eq_refl Hy).
Qed.

Lemma list_find_insert_other l i x y :
  l !! i = Some x → ¬ P x → ¬ P y → list_find P (<[i:=y]> l) = list_find P l.
Proof.
  revert i. induction l as [|z l IH]; intros [|i]; simpl; try done.
  - intros [= ->] Hx Hy. by rewrite !decide_False.
  - intros Hi Hx Hy. by rewrite (IH i Hi Hx Hy).
Qed.

Lemma list_find_snoc_new l y :
  list_find P l = None → P y → list_find P (l ++ [y]) = Some (length l, y).
Proof.
  induction l as [|z l IH]; simpl.
  - intros _ Hy. by rewrite decide_True.
  - case_decide; [done|].
    destruct (list_find P l) eqn:Hfind; simpl; [done|].
    intros _ Hy. by rewrite IH.
Qed.

Lemma list_find_lookup l i x : list_find P l = Some (i, x) → l !! i = Some x ∧ P x.
Proof. intros Hfind. apply list_find_Some in Hfind. tauto. Qed.

Lemma list_find_None_filter l : list_find P l = None → filter P l = [].
Proof.
  induction l as [|z l IH]; simpl; [done|].
  case_decide; [done|].
  destruct (list_find P l); simpl; [done|].
  intros _. rewrite filter_cons_False by done. by apply IH.
Qed.

Lemma list_find_Some_filter l i x :
  list_find P l = Some (i, x) → (0 < length (filter P l))%nat.
Proof.
  intros [Hi Hx]%list_find_lookup.
  assert (x ∈ filter P l) as Hin.
  { apply list_elem_of_filter. split; [done|]. by eapply list_elem_of_lookup_2. }
  destruct (filter P l); [by apply elem_of_nil in Hin | simpl; lia].
Qed.
End find.

(** Replacing an element by one that a filter and a projection cannot tell
    from it changes neither. *)
Lemma filter_insert_alike {B} (Q : A → Prop) `{!∀ x, Decision (Q x)}
    (f : A → B) l i x y :
  l !! i = Some x → (Q x ↔ Q y) → f x = f y →
  f <$> filter Q (<[i:=y]> l) = f <$> filter Q l.
Proof.
  revert i. induction l as [|z l IH]; intros [|i]; try done.
  - intros [= ->] HQ Hf. change (<[0%nat:=y]> (x :: l)) with (y :: l).
    destruct (decide (Q x)) as [Hx|Hx].
    + rewrite !filter_cons_True by tauto. rewrite !fmap_cons. by rewrite Hf.
    + rewrite !filter_cons_False by tauto. done.
  - intros Hi HQ Hf. change (l !! i = Some x) in Hi.
    change (<[S i:=y]> (z :: l)) with (z :: <[i:=y]> l).
    specialize (IH i Hi HQ Hf).
    destruct (decide (Q z)) as [Hz|Hz].
    + rewrite !filter_cons_True by done. rewrite !fmap_cons. by rewrite IH.
    + by rewrite !filter_cons_False by done.
Qed.
End list_facts.

(** ** Appending what a lookup does not see *)

Section find_more.
Context {A : Type} (P : A → Prop) `{!∀ x, Decision (P x)}.

Lemma list_find_app_none_of (l m : list A) :
  Forall (λ y, ¬ P y) m → list_find P (l ++ m) = list_find P l.
Proof.
  intros Hm. induction l as [|z l IH]; simpl.
  - apply list_find_None. exact Hm.
  - by rewrite IH.
Qed.

Lemma filter_app_none_of (l m : list A) :
  Forall (λ y, ¬ P y) m → filter P (l ++ m) = filter P l.
Proof.
  intros Hm. rewrite filter_app.
  assert (filter P m = []) as ->; [|by rewrite (right_id_L [] (++))].
  induction Hm as [|y m Hy _ IH]; [done|].
  by rewrite filter_cons_False.
Qed.
End find_more.

(** ** Update in place or append *)

Section upsert_facts.
Context {R E : Type} (key : E → string) (P : string → R → Prop)
  `{!∀ k r, Decision (P k r)} (upd : R → R) (mk : E → R).
Hypothesis P_upd : ∀ k r, P k r ↔ P k (upd r).
Hypothesis P_mk : ∀ e, P (key e) (mk e).
Hypothesis P_key : ∀ k k' r, P k r → P k' r → k = k'.

Lemma find_upsert rs e k :
  snd <$> list_find (P k) (upsert key P upd mk rs e)
  = upsert_found key upd mk k (snd <$> list_find (P k) rs) e.
Proof.
  unfold upsert, upsert_found.
  destruct (list_find (P (key e)) rs) as [[i r]|] eqn:Hfind.
  - destruct (list_find_lookup _ _ _ _ Hfind) as [Hi Hr].
    case_decide as Hk.
    + subst k. rewrite Hfind. simpl.
      erewrite list_find_insert_same; [done | exact Hfind |].
      by apply (proj1 (P_upd _ _)).
    + erewrite list_find_insert_other; [done | exact Hi | |].
      * intros Hr'. apply Hk. by eapply P_key.
      * intros Hr'. apply (proj2 (P_upd _ _)) in Hr'.
        apply Hk. by eapply P_key.
  - case_decide as Hk.
    + subst k. rewrite Hfind. simpl.
      erewrite list_find_snoc_new; [done | exact Hfind | apply P_mk].
    + rewrite list_find_app_none_of; [done|].
      constructor; [|constructor].
      intros Hn. apply Hk. eapply P_key; [apply P_mk | exact Hn].
Qed.

Lemma find_foldl_upsert k es rs :
  snd <$> list_find (P k) (foldl (upsert key P upd mk) rs es)
  = foldl (upsert_found key upd mk k) (snd <$> list_find (P k) rs) es.
Proof.
  revert rs. induction es as [|e es IH]; intros rs; simpl; [done|].
  by rewrite IH, find_upsert.
Qed.

Lemma count_upsert rs e k :
  length (filter (P k) (upsert key P upd mk rs e))
  = if decide (key e = k)
    then (1 `max` length (filter (P k) rs))%nat
    else length (filter (P k) rs).
Proof.
  unfold upsert.
  destruct (list_find (P (key e)) rs) as [[i r]|] eqn:Hfind.
  - destruct (list_find_lookup _ _ _ _ Hfind) as [Hi Hr].
    assert (length (filter (P k) (<[i:=upd r]> rs))
            = length (filter (P k) rs)) as ->.
    { rewrite <- (length_fmap (λ _, ())),
        <- (length_fmap (λ _, ()) (filter _ rs)).
      f_equal. by apply (filter_insert_alike (P k) (λ _, ()) rs i r). }
    case_decide as Hk; [|done]. subst k.
    pose proof (list_find_Some_filter _ _ _ _ Hfind). lia.
  - case_decide as Hk.
    + subst k. rewrite filter_app, length_app.
      rewrite (list_find_None_filter _ _ Hfind).
      by rewrite filter_cons_True by apply P_mk.
    + rewrite filter_app_none_of; [done|].
      constructor; [|constructor].
      intros Hn. apply Hk. eapply P_key; [apply P_mk | exact Hn].
Qed.

(** A field that an update raises by one and a new pattern sets to one
    counts the entries of the key. *)
Lemma measure_foldl_upsert_found (f : R → Z) k es found :
  (∀ r, f (upd r) = f r + 1) → (∀ e, f (mk e) = 1) →
  from_option f 0 (foldl (upsert_found key upd mk k) found es)
  = from_option f 0 found
    + Z.of_nat (length (filter (λ e, key e = k) es)).
Proof.
  intros Hupd Hmk. revert found.
  induction es as [|e es IH]; intros found; simpl; [lia|].
  rewrite IH. unfold upsert_found.
  destruct (decide (key e = k)).
  - rewrite filter_cons_True by done. simpl length.
    destruct found; simpl; rewrite ?Hupd, ?Hmk; lia.
  - by rewrite filter_cons_False by done.
Qed.

(** What every update and every creation establishes holds of the pattern
    once an entry of the key was seen. *)
Lemma established_foldl_upsert_found (Q : R → Prop) k es found :
  (∀ r, Q (upd r)) → (∀ e, Q (mk e)) →
  (∃ r, found = Some r ∧ Q r)
  ∨ (0 < length (filter (λ e, key e = k) es))%nat →
  ∃ r, foldl (upsert_found key upd mk k) found es = Some r ∧ Q r.
Proof.
  intros Hupd Hmk. revert found.
  induction es as [|e es IH]; intros found; simpl.
  - intros [Hfound|Hn]; [done | lia].
  - intros Hor. apply IH. unfold upsert_found at 1.
    destruct (decide (key e = k)) as [Hk|Hk].
    + left. eexists. split; [done|]. destruct found; simpl; auto.
    + rewrite filter_cons_False in Hor by done. exact Hor.
Qed.
End upsert_facts.

(** ** The failure pattern of one key under [update_failure_patterns] *)

Lemma update_failure_record_is_failure_iff now a k r :
  is_failure_with k r ↔ is_failure_with k (update_failure_record now a r).
Proof. done. Qed.

Lemma new_failure_pattern_is_failure now a ep :
  is_failure_with (pattern_key ep) (new_failure_pattern now a ep).
Proof. done. Qed.

Lemma is_failure_with_key k k' r :
  is_failure_with k r → is_failure_with k' r → k = k'.
Proof. intros [_ <-] [_ <-]. done. Qed.

(** One entry: the pattern of its key is updated or created, the patterns
    of the other keys are left alone. *)
Lemma find_failure_record_error_pattern now a rs ep k :
  find_failure k (record_error_pattern now a rs ep)
  = observe_entry now a k (find_failure k rs) ep.
Proof.
  apply (find_upsert pattern_key is_failure_with
           (update_failure_record now a) (new_failure_pattern now a)).
  - intros. apply update_failure_record_is_failure_iff.
  - apply new_failure_pattern_is_failure.
  - apply is_failure_with_key.
Qed.

Lemma find_failure_foldl now a k eps rs :
  find_failure k (foldl (record_error_pattern now a) rs eps)
  = foldl (observe_entry now a k) (find_failure k rs) eps.
Proof.
  revert rs. induction eps as [|ep eps IH]; intros rs; simpl; [done|].
  by rewrite IH, find_failure_record_error_pattern.
Qed.

(** One entry never adds a second failure pattern of a key. *)
Lemma count_failures_record_error_pattern now a rs ep k :
  count_failures k (record_error_pattern now a rs ep)
  = if decide (pattern_key ep = k)
    then (1 `max` count_failures k rs)%nat else count_failures k rs.
Proof.
  apply (count_upsert pattern_key is_failure_with
           (update_failure_record now a) (new_failure_pattern now a)).
  - intros. apply update_failure_record_is_failure_iff.
  - apply new_failure_pattern_is_failure.
  - apply is_failure_with_key.
Qed.

Lemma count_failures_foldl now a k eps rs :
  count_failures k (foldl (record_error_pattern now a) rs eps)
  = if decide (0 < length (filter (λ ep, pattern_key ep = k) eps))%nat
    then (1 `max` count_failures k rs)%nat else count_failures k rs.
Proof.
  revert rs. induction eps as [|ep eps IH]; intros rs; simpl.
  - done.
  - rewrite IH, count_failures_record_error_pattern.
    destruct (decide (pattern_key ep = k)) as [Hk|Hk].
    + rewrite filter_cons_True by done. simpl.
      case_decide; lia.
    + rewrite filter_cons_False by done. done.
Qed.

Lemma frequency_of_observe_entry now a k o ep :
  frequency_of (observe_entry now a k o ep)
  = frequency_of o + (if decide (pattern_key ep = k) then 1 else 0).
Proof.
  unfold observe_entry. case_decide; [|simpl; lia].
  destruct o; simpl; lia.
Qed.

Lemma frequency_of_foldl now a k eps o :
  frequency_of (foldl (observe_entry now a k) o eps)
  = frequency_of o
    + Z.of_nat (length (filter (λ ep, pattern_key ep = k) eps)).
Proof.
  revert o. induction eps as [|ep eps IH]; intros o; simpl; [lia|].
  rewrite IH, frequency_of_observe_entry.
  destruct (decide (pattern_key ep = k)).
  - rewrite filter_cons_True by done. simpl length. lia.
  - rewrite filter_cons_False by done. lia.
Qed.

Lemma frequency_of_observe_analysis now a k o :
  frequency_of (observe_analysis now a k o)
  = frequency_of o + Z.of_nat (occurrences k a).
Proof. apply frequency_of_foldl. Qed.

Lemma bounded_append_app old seen1 seen2 :
  bounded_append (bounded_append old seen1) seen2
  = bounded_append old (seen1 ++ seen2).
Proof.
  destruct seen1 as [|c1 seen1]; [done|].
  destruct seen2 as [|c2 seen2].
  - by rewrite (right_id_L [] (++)).
  - unfold bounded_append. simpl app.
    change (c1 :: seen1 ++ c2 :: seen2) with ((c1 :: seen1) ++ c2 :: seen2).
    rewrite lastn_lastn_app. by rewrite <- (assoc_L (++)).
Qed.

Lemma length_bounded_append old seen :
  seen ≠ [] → (length (bounded_append old seen) ≤ 10)%nat.
Proof.
  destruct seen; [done|]. intros _. unfold bounded_append.
  rewrite length_lastn. lia.
Qed.

Lemma contexts_of_observe_entry now a k o ep :
  contexts_of (observe_entry now a k o ep)
  = bounded_append (contexts_of o)
      (if decide (pattern_key ep = k) then [context_of a] else []).
Proof.
  unfold observe_entry. case_decide; [|done].
  destruct o; done.
Qed.

Lemma contexts_of_foldl now a k eps o :
  contexts_of (foldl (observe_entry now a k) o eps)
  = bounded_append (contexts_of o)
      (replicate (length (filter (λ ep, pattern_key ep = k) eps))
                 (context_of a)).
Proof.
  revert o. induction eps as [|ep eps IH]; intros o; simpl; [done|].
  rewrite IH, contexts_of_observe_entry, bounded_append_app.
  destruct (decide (pattern_key ep = k)).
  - by rewrite filter_cons_True by done.
  - by rewrite filter_cons_False by done.
Qed.

Lemma contexts_of_observe_analysis now a k o :
  contexts_of (observe_analysis now a k o)
  = bounded_append (contexts_of o)
      (replicate (occurrences k a) (context_of a)).
Proof. apply contexts_of_foldl. Qed.

Lemma observe_entry_is_Some now a k o ep :
  is_Some o ∨ pattern_key ep = k → is_Some (observe_entry now a k o ep).
Proof.
  unfold observe_entry. intros [Ho|Hk]; case_decide; eauto; done.
Qed.

Lemma observe_foldl_is_Some now a k eps o :
  is_Some o ∨ (0 < length (filter (λ ep, pattern_key ep = k) eps))%nat →
  is_Some (foldl (observe_entry now a k) o eps).
Proof.
  revert o. induction eps as [|ep eps IH]; intros o; simpl.
  - intros [Ho|Hn]; [done | lia].
  - intros [Ho|Hn]; apply IH.
    + left. apply observe_entry_is_Some. by left.
    + destruct (decide (pattern_key ep = k)) as [Hk|Hk].
      * left. apply observe_entry_is_Some. by right.
      * right. by rewrite filter_cons_False in Hn.
Qed.

(** ** The pattern database under the learner *)

Lemma job_patterns_oset j j' rs w :
  job_patterns j (set_pattern_database (oset j' rs (pattern_database w)) w)
  = if decide (j' = j) then rs else job_patterns j w.
Proof.
  unfold job_patterns. simpl. case_decide as Hj.
  - subst j'. by rewrite oget_oset_eq.
  - by rewrite oget_oset_ne.
Qed.

Section learner_facts.
Context (ext : Externals).

Local Ltac no_tail :=
  exists []; rewrite (right_id_L [] (++));
  split; [done | split; [constructor | simpl; lia]].

(** [_correlate_failure_with_success] appends at most one pattern, a
    correlation, to the list of the job of the analysis. *)
Lemma correlate_job_patterns now a w j :
  ∃ tail,
    job_patterns j (_correlate_failure_with_success ext now a w)
    = job_patterns j w ++ tail
    ∧ Forall is_correlation tail ∧ (length tail ≤ 1)%nat.
Proof.
  unfold _correlate_failure_with_success.
  destruct (successful_analyses w a) as [|first others].
  { no_tail. }
  case_decide.
  { no_tail. }
  rewrite job_patterns_oset. case_decide as Hj.
  - subst j. eexists [_]. split; [done|]. split; [|simpl; lia].
    by constructor.
  - no_tail.
Qed.

Lemma correlation_not_failure k tail :
  Forall is_correlation tail → Forall (λ r, ¬ is_failure_with k r) tail.
Proof.
  intros Htail. eapply Forall_impl; [exact Htail|].
  intros r Hc [Hf _]. unfold is_correlation in Hc. congruence.
Qed.

Lemma update_failure_patterns_job_patterns now a w j :
  ∃ tail,
    job_patterns j (update_failure_patterns ext now a w)
    = (if decide (job_name (build_info a) = j)
       then foldl (record_error_pattern now a) (job_patterns j w)
                  (error_patterns a)
       else job_patterns j w) ++ tail
    ∧ Forall is_correlation tail ∧ (length tail ≤ 1)%nat.
Proof.
  unfold update_failure_patterns.
  destruct (correlate_job_patterns now a
              (set_pattern_database
                 (oset (job_name (build_info a))
                    (foldl (record_error_pattern now a)
                       (default [] (oget (job_name (build_info a))
                                      (pattern_database w)))
                       (error_patterns a))
                    (pattern_database w)) w) j) as (tail & Heq & Htail).
  exists tail. split; [|exact Htail].
  rewrite Heq, job_patterns_oset. by case_decide; subst.
Qed.

Lemma find_failure_update_failure_patterns now a w j k :
  find_failure k (job_patterns j (update_failure_patterns ext now a w))
  = if decide (job_name (build_info a) = j)
    then observe_analysis now a k (find_failure k (job_patterns j w))
    else find_failure k (job_patterns j w).
Proof.
  destruct (update_failure_patterns_job_patterns now a w j)
    as (tail & -> & Htail & _).
  unfold find_failure at 1.
  rewrite list_find_app_none_of by by apply correlation_not_failure.
  case_decide; [|done]. apply find_failure_foldl.
Qed.

Lemma count_failures_update_failure_patterns now a w j k :
  count_failures k (job_patterns j (update_failure_patterns ext now a w))
  = if decide (job_name (build_info a) = j ∧ (0 < occurrences k a)%nat)
    then (1 `max` count_failures k (job_patterns j w))%nat
    else count_failures k (job_patterns j w).
Proof.
  destruct (update_failure_patterns_job_patterns now a w j)
    as (tail & -> & Htail & _).
  unfold count_failures at 1.
  rewrite filter_app_none_of by by apply correlation_not_failure.
  destruct (decide (job_name (build_info a) = j)) as [Hj|Hj].
  - fold (count_failures k (foldl (record_error_pattern now a)
                              (job_patterns j w) (error_patterns a))).
    rewrite count_failures_foldl. unfold occurrences.
    repeat case_decide; try done; tauto.
  - rewrite decide_False by tauto. done.
Qed.

End learner_facts.

(** ** Repeated observations of a failure *)

Section repeated_failures.
Context (ext : Externals).

Lemma contexts_seen_cons job key (c : FailureCall) calls :
  contexts_seen job key (c :: calls)
  = (if decide (job_name (build_info c.2) = job)
     then replicate (occurrences key c.2) (context_of c.2) else [])
    ++ contexts_seen job key calls.
Proof. done. Qed.

Lemma contexts_of_observe_failures calls w job key :
  contexts_of (find_failure key (job_patterns job (observe_failures ext calls w)))
  = bounded_append (contexts_of (find_failure key (job_patterns job w)))
                   (contexts_seen job key calls).
Proof.
  revert w. induction calls as [|c calls IH]; intros w; [done|].
  change (observe_failures ext (c :: calls) w)
    with (observe_failures ext calls
            (update_failure_patterns ext c.1.1 c.2 (set_analysis_cache c.1.2 w))).
  rewrite IH, contexts_seen_cons, <- bounded_append_app. f_equal.
  rewrite find_failure_update_failure_patterns.
  case_decide; [|done]. apply contexts_of_observe_analysis.
Qed.

Lemma find_failure_observe_failures_is_Some calls w job key :
  is_Some (find_failure key (job_patterns job w))
  ∨ contexts_seen job key calls ≠ [] →
  is_Some (find_failure key (job_patterns job (observe_failures ext calls w))).
Proof.
  revert w. induction calls as [|c calls IH]; intros w.
  - intros [Hw|Hn]; done.
  - change (observe_failures ext (c :: calls) w)
      with (observe_failures ext calls
              (update_failure_patterns ext c.1.1 c.2
                 (set_analysis_cache c.1.2 w))).
    rewrite contexts_seen_cons. intros Hor. apply IH.
    rewrite find_failure_update_failure_patterns.
    destruct (decide (job_name (build_info c.2) = job)) as [Hj|Hj].
    + destruct (decide (0 < occurrences key c.2)%nat) as [Hocc|Hocc].
      * left. apply observe_foldl_is_Some. by right.
      * assert (occurrences key c.2 = 0%nat) as Hz by lia.
        rewrite Hz in Hor. simpl in Hor.
        destruct Hor as [Hw|Hn]; [|by right].
        left. apply observe_foldl_is_Some. by left.
    + simpl in Hor. exact Hor.
Qed.

(** C7. Whatever pattern a lookup of [key] finds among the patterns of
    [job], and whatever calls of [update_failure_patterns] follow, once
    they have appended at least one context entry the pattern's history is
    the last ten of the old entries followed by the appended ones, in
    insertion order; it has at most ten entries. *)
Theorem failure_contexts_keep_last_10 (w : World) (calls : list FailureCall)
    (job key : string) :
  contexts_seen job key calls ≠ [] →
  ∃ r,
    find_failure key (job_patterns job (observe_failures ext calls w)) = Some r
    ∧ default [] (p_contexts r)
      = lastn 10 (contexts_of (find_failure key (job_patterns job w))
                  ++ contexts_seen job key calls)
    ∧ (length (default [] (p_contexts r)) ≤ 10)%nat.
Proof.
  intros Hseen.
  destruct (find_failure_observe_failures_is_Some calls w job key)
    as [r Hr]; [by right|].
  exists r. split; [exact Hr|].
  pose proof (contexts_of_observe_failures calls w job key) as Hctx.
  rewrite Hr in Hctx. simpl in Hctx. rewrite Hctx.
  split.
  - unfold bounded_append. by destruct (contexts_seen job key calls).
  - by apply length_bounded_append.
Qed.

(** Amended C8. Two calls of [update_failure_patterns] with the same
    analysis raise the frequency of the failure pattern of a key by twice
    the number of entries of the analysis that carry the key, and leave
    exactly one failure pattern of that key if there was none or one. *)
Theorem record_failure_twice_frequency (now1 now2 : Z)
    (cache2 : odict string BuildAnalysis) (a : BuildAnalysis) (w : World)
    (key : string) :
  (0 < occurrences key a)%nat →
  frequency_of
    (find_failure key
       (job_patterns (job_name (build_info a))
          (record_failure_twice ext now1 now2 cache2 a w)))
  = frequency_of
      (find_failure key (job_patterns (job_name (build_info a)) w))
    + 2 * Z.of_nat (occurrences key a)
  ∧ count_failures key
      (job_patterns (job_name (build_info a))
         (record_failure_twice ext now1 now2 cache2 a w))
    = (1 `max` count_failures key
                 (job_patterns (job_name (build_info a)) w))%nat.
Proof.
  intros Hocc. unfold record_failure_twice. split.
  - rewrite !find_failure_update_failure_patterns.
    rewrite !decide_True by done.
    rewrite !frequency_of_observe_analysis.
    change (job_patterns (job_name (build_info a))
              (set_analysis_cache cache2 (update_failure_patterns ext now1 a w)))
      with (job_patterns (job_name (build_info a))
              (update_failure_patterns ext now1 a w)).
    rewrite find_failure_update_failure_patterns, decide_True by done.
    rewrite frequency_of_observe_analysis. lia.
  - rewrite !count_failures_update_failure_patterns.
    rewrite !decide_True by done.
    change (job_patterns (job_name (build_info a))
              (set_analysis_cache cache2 (update_failure_patterns ext now1 a w)))
      with (job_patterns (job_name (build_info a))
              (update_failure_patterns ext now1 a w)).
    rewrite count_failures_update_failure_patterns, decide_True by done.
    lia.
Qed.

End repeated_failures.

Lemma failure_contexts_keep_last_10_witness :
  contexts_seen "job" "E" twelve_calls ≠ []
  ∧ ∃ r,
      find_failure "E"
        (job_patterns "job"
           (observe_failures quiet_externals twelve_calls empty_world))
      = Some r
      ∧ default [] (p_contexts r)
        = lastn 10 (contexts_of (find_failure "E" (job_patterns "job" empty_world))
                    ++ contexts_seen "job" "E" twelve_calls)
      ∧ (length (default [] (p_contexts r)) ≤ 10)%nat.
Proof.
  split.
  - vm_compute. discriminate.
  - apply (failure_contexts_keep_last_10 quiet_externals empty_world
             twelve_calls "job" "E").
    vm_compute. discriminate.
Defined.

Lemma record_failure_twice_frequency_witness :
  (0 < occurrences "E" doubled_analysis)%nat
  ∧ frequency_of
      (find_failure "E"
         (job_patterns "job"
            (record_failure_twice quiet_externals 1 2 [] doubled_analysis
               empty_world)))
    = 0 + 2 * Z.of_nat (occurrences "E" doubled_analysis)
  ∧ count_failures "E"
      (job_patterns "job"
         (record_failure_twice quiet_externals 1 2 [] doubled_analysis
            empty_world))
    = 1%nat.
Proof.
  split.
  - vm_compute. lia.
  - apply (record_failure_twice_frequency quiet_externals 1 2 []
             doubled_analysis empty_world "E").
    vm_compute. lia.
Defined.

(** C8 as stated fails: an analysis that lists the key twice raises the
    frequency by four over two calls. *)
Lemma record_failure_twice_counterexample :
  frequency_of
    (find_failure "E"
       (job_patterns "job"
          (record_failure_twice quiet_externals 1 2 [] doubled_analysis
             empty_world)))
  ≠ frequency_of (find_failure "E" (job_patterns "job" empty_world)) + 2.
Proof. vm_compute. discriminate. Qed.

(** ** Severity of a repeated failure *)

Lemma update_failure_record_severity now a r :
  p_severity (update_failure_record now a r)
  = Some (py_max_str (default "medium" (p_severity r)) (severity a)).
Proof. done. Qed.

(** C1 (the code departs from it). The severity kept on a repeat
    observation is the greater of the two strings in lexicographic order,
    where ["HIGH" < "LOW" < "MEDIUM"]: a HIGH pattern observed with a LOW
    analysis becomes LOW, and a MEDIUM pattern observed with a HIGH analysis
    stays MEDIUM. *)
Theorem record_failure_severity_is_string_max :
  p_severity
    <$> find_failure "E"
          (job_patterns "job"
             (update_failure_patterns quiet_externals 10
                (failing_analysis "LOW") (world_with_failure "HIGH" 0)))
  = Some (Some "LOW")
  ∧ p_severity
      <$> find_failure "E"
            (job_patterns "job"
               (update_failure_patterns quiet_externals 10
                  (failing_analysis "HIGH") (world_with_failure "MEDIUM" 0)))
    = Some (Some "MEDIUM").
Proof. split; vm_compute; reflexivity. Qed.

(** ** Pruning *)

Lemma oget_fmap_values {V W} (f : V → W) (k : string) (d : odict string V) :
  oget k (prod_map id f <$> d) = f <$> oget k d.
Proof.
  induction d as [|[k' v] d IH]; [done|]. simpl.
  by destruct (decide (k' = k)).
Qed.

Lemma job_patterns_cleanup_patterns now w job :
  job_patterns job (cleanup_patterns now w)
  = List.filter (pattern_is_kept now) (job_patterns job w).
Proof.
  unfold job_patterns, cleanup_patterns. simpl.
  rewrite oget_fmap_values. by destruct (oget job (pattern_database w)).
Qed.

Lemma pattern_is_kept_iff now r :
  pattern_is_kept now r = true ↔ now - p_last_seen r < days 30.
Proof. unfold pattern_is_kept. apply Z.ltb_lt. Qed.

(** What [cleanup_patterns] removes: a pattern goes as soon as its age
    reaches thirty days. *)
Lemma cleanup_patterns_removes_iff now w job r :
  r ∈ job_patterns job w →
  (r ∉ job_patterns job (cleanup_patterns now w)
   ↔ days 30 ≤ now - p_last_seen r).
Proof.
  intros Hin. rewrite job_patterns_cleanup_patterns.
  rewrite list_elem_of_In, filter_In, <- list_elem_of_In, pattern_is_kept_iff.
  split.
  - intros Hn. destruct (decide (days 30 ≤ now - p_last_seen r)); [done|].
    exfalso. apply Hn. split; [done | lia].
  - intros Hle [_ Hlt]. lia.
Qed.

(** C3 (the code departs from it). [cleanup_patterns] keeps a pattern only
    while [now - last_seen < 30 days]: a pattern last seen exactly thirty
    days ago is removed, whatever the clock and the pattern. *)
Theorem cleanup_patterns_removes_at_exactly_30_days (now : Z) (sev : string) :
  job_patterns "job"
    (cleanup_patterns now (world_with_failure sev (now - days 30)))
  = [].
Proof.
  rewrite job_patterns_cleanup_patterns.
  unfold job_patterns, world_with_failure. simpl.
  unfold pattern_is_kept. simpl.
  replace (now - (now - days 30)) with (days 30) by lia.
  by rewrite Z.ltb_irrefl.
Qed.

(** The sibling sweep of the analysis cache keeps an entry of exactly
    seven days. *)
Lemma analysis_is_expired_at_exactly_7_days (now : Z) (a : BuildAnalysis) :
  timestamp a = now - days 7 → analysis_is_expired now a = false.
Proof.
  intros Hts. unfold analysis_is_expired. rewrite Hts.
  replace (now - (now - days 7)) with (days 7) by lia.
  apply Z.ltb_irrefl.
Qed.

(** ** Batch extraction *)

Lemma counts_ok_oset key n counts :
  counts_ok counts → 0 < n → counts_ok (oset key n counts).
Proof.
  intros [Hnd Hpos] Hn. split.
  - destruct (oget key counts) as [v|] eqn:Hget.
    + rewrite okeys_oset_in; [done | by rewrite Hget].
    + rewrite okeys_oset_notin by done.
      apply NoDup_app. split; [done|]. split; [|apply NoDup_singleton].
      intros k Hk ->%list_elem_of_singleton.
      by apply oget_None_notin in Hget.
  - clear Hnd. induction counts as [|[k v] counts IH]; simpl.
    + by repeat constructor.
    + apply Forall_cons in Hpos as [Hv Hpos].
      destruct (decide (k = key)); constructor; auto.
Qed.

Lemma oget_pos key counts v :
  Forall (λ e : string * Z, 0 < e.2) counts → oget key counts = Some v → 0 < v.
Proof.
  intros Hpos Hget%oget_Some_elem.
  rewrite Forall_forall in Hpos. exact (Hpos _ Hget).
Qed.

Lemma count_errors_spec eps counts :
  Forall (λ ep, is_Some (ep_pattern ep)) eps → counts_ok counts →
  ∃ counts',
    count_errors eps counts = Ok counts' ∧ counts_ok counts'
    ∧ ∀ k, default 0 (oget k counts')
           = default 0 (oget k counts)
             + Z.of_nat (length (filter (λ ep, pattern_key ep = k) eps)).
Proof.
  revert counts. induction eps as [|ep eps IH]; intros counts Hkeys Hok.
  - exists counts. repeat split; try apply Hok. intros k. simpl. lia.
  - apply Forall_cons in Hkeys as [[key Hkey] Hkeys]. simpl. rewrite Hkey.
    assert (0 ≤ default 0 (oget key counts)) as Hge.
    { destruct (oget key counts) as [v|] eqn:Hget; simpl; [|lia].
      pose proof (oget_pos _ _ _ (proj2 Hok) Hget). lia. }
    destruct (IH (oset key (default 0 (oget key counts) + 1) counts) Hkeys)
      as (counts' & Hrun & Hok' & Hcount).
    { apply counts_ok_oset; [done | lia]. }
    exists counts'. split; [exact Hrun|]. split; [exact Hok'|].
    intros k. rewrite Hcount.
    assert (pattern_key ep = key) as Hpk by (unfold pattern_key; by rewrite Hkey).
    destruct (decide (key = k)) as [->|Hne].
    + rewrite oget_oset_eq, filter_cons_True by done. simpl. lia.
    + rewrite oget_oset_ne, filter_cons_False by congruence. done.
Qed.

Lemma count_analyses_spec analyses counts :
  Forall well_keyed analyses → counts_ok counts →
  ∃ counts',
    count_analyses analyses counts = Ok counts' ∧ counts_ok counts'
    ∧ ∀ k, default 0 (oget k counts')
           = default 0 (oget k counts)
             + Z.of_nat (total_occurrences k analyses).
Proof.
  revert counts. induction analyses as [|a analyses IH]; intros counts Hkeys Hok.
  - exists counts. repeat split; try apply Hok. intros k.
    unfold total_occurrences. simpl. lia.
  - apply Forall_cons in Hkeys as [Ha Hkeys]. simpl.
    destruct (count_errors_spec _ counts Ha Hok) as (c1 & -> & Hok1 & Hc1).
    simpl.
    destruct (IH c1 Hkeys Hok1) as (c2 & Hrun & Hok2 & Hc2).
    exists c2. split; [exact Hrun|]. split; [exact Hok2|].
    intros k. rewrite Hc2, Hc1. unfold total_occurrences.
    rewrite fmap_cons. simpl sum_list. unfold occurrences at 2.
    rewrite Nat2Z.inj_add. lia.
Qed.

(** With distinct keys, the promoted patterns of a key come from the one
    count [oget] finds. *)
Lemma with_pattern_promoted now analyses key (counts : list (string * Z)) :
  NoDup (okeys counts) →
  with_pattern key
    ((λ e, promoted_pattern now analyses e.1 e.2)
       <$> List.filter (λ e : string * Z, 3 <=? e.2) counts)
  = match oget key counts with
    | Some c =>
        if decide (3 ≤ c) then [promoted_pattern now analyses key c] else []
    | None => []
    end.
Proof.
  unfold okeys, with_pattern. induction counts as [|[k c] counts IH]; [done|].
  rewrite fmap_cons, NoDup_cons. intros [Hnotin Hnd].
  specialize (IH Hnd).
  change (oget key ((k, c) :: counts))
    with (if decide (k = key) then Some c else oget key counts).
  change (List.filter (λ e : string * Z, 3 <=? e.2) ((k, c) :: counts))
    with (if 3 <=? c
          then (k, c) :: List.filter (λ e : string * Z, 3 <=? e.2) counts
          else List.filter (λ e : string * Z, 3 <=? e.2) counts).
  destruct (decide (k = key)) as [->|Hne].
  - assert (oget key counts = None) as Hnone by by apply oget_None_notin.
    rewrite Hnone in IH.
    destruct (Z.leb_spec 3 c).
    + rewrite decide_True by done. rewrite fmap_cons.
      rewrite filter_cons_True by done. by rewrite IH.
    + rewrite decide_False by lia. exact IH.
  - destruct (Z.leb_spec 3 c); [|exact IH].
    rewrite fmap_cons, filter_cons_False by done. exact IH.
Qed.

(** X8. What a batch pass promotes for a key: one pattern whose frequency
    is the number of entries of the batch that carry the key, provided
    there are at least three of them; nothing otherwise. *)
Lemma extract_patterns_promotes now analyses key :
  Forall well_keyed analyses →
  ∃ promoted,
    extract_patterns now analyses = Ok promoted
    ∧ with_pattern key promoted
      = if decide (3 ≤ total_occurrences key analyses)%nat
        then [promoted_pattern now analyses key
                (Z.of_nat (total_occurrences key analyses))]
        else [].
Proof.
  intros Hkeys. unfold extract_patterns.
  destruct (count_analyses_spec analyses [] Hkeys) as (counts & -> & Hok & Hc).
  { split; [apply NoDup_nil_2 | constructor]. }
  simpl. eexists. split; [done|].
  rewrite (with_pattern_promoted now analyses key counts (proj1 Hok)).
  specialize (Hc key). simpl in Hc.
  destruct (oget key counts) as [v|] eqn:Hget; simpl in Hc.
  - subst v. repeat case_decide; try done; lia.
  - rewrite decide_False by lia. done.
Qed.

(** C9 (the code departs from it). Three analyses that each list the
    string twice yield one promoted pattern of frequency six, not three:
    [extract_patterns] counts entries, not builds. *)
Theorem extract_patterns_counts_entries :
  extract_patterns 10 three_doubled
  = Ok [promoted_pattern 10 three_doubled "E" 6].
Proof. vm_compute. reflexivity. Qed.

(** ** Matching *)

Lemma any_pattern_eq_spec pattern_str errors :
  Forall (λ ep, is_Some (ep_pattern ep)) errors →
  any_pattern_eq pattern_str errors
  = Ok (bool_decide (pattern_str ∈ pattern_key <$> errors)).
Proof.
  induction 1 as [|ep errors [s Hs] _ IH]; [done|].
  assert (pattern_key ep = s) as Hk by (unfold pattern_key; by rewrite Hs).
  rewrite fmap_cons, Hk. cbn [any_pattern_eq]. rewrite Hs.
  destruct (String.eqb_spec s pattern_str) as [->|Hne].
  - by rewrite bool_decide_eq_true_2 by apply list_elem_of_here.
  - rewrite IH. f_equal. apply bool_decide_ext.
    rewrite elem_of_cons. split; [tauto|]. intros [?|?]; [congruence | done].
Qed.

Lemma collect_matches_spec a rs :
  well_keyed a →
  collect_matches a rs
  = Ok (filter (λ r, p_pattern r ∈ pattern_key <$> error_patterns a) rs).
Proof.
  intros Hkeys. induction rs as [|r rs IH]; simpl; [done|].
  unfold pattern_matches. rewrite any_pattern_eq_spec by done. simpl.
  rewrite IH. simpl. case_bool_decide.
  - by rewrite filter_cons_True.
  - by rewrite filter_cons_False.
Qed.

(** Amended C5. [match_known_patterns] returns, in the order of the store,
    exactly the patterns of the job whose key equals the ['pattern'] of some
    entry of the analysis, whatever their variant. *)
Theorem match_known_patterns_exact (w : World) (a : BuildAnalysis) :
  well_keyed a →
  match_known_patterns w a
  = Ok (filter (λ r, p_pattern r ∈ pattern_key <$> error_patterns a)
               (job_patterns (job_name (build_info a)) w)).
Proof. intros Hkeys. by apply collect_matches_spec. Qed.

Lemma match_known_patterns_exact_witness :
  well_keyed timing_analysis
  ∧ match_known_patterns world_after_success timing_analysis
    = Ok (filter (λ r, p_pattern r ∈ pattern_key <$> error_patterns timing_analysis)
                 (job_patterns "job" world_after_success)).
Proof.
  split.
  - repeat constructor; by eexists.
  - apply (match_known_patterns_exact world_after_success timing_analysis).
    repeat constructor; by eexists.
Defined.

(** C5 as stated fails: the success pattern ["timing_normal"] of the job is
    returned for an analysis whose error pattern reads the same. *)
Lemma match_known_patterns_counterexample :
  ¬ ∀ matches r,
      match_known_patterns world_after_success timing_analysis = Ok matches →
      r ∈ matches →
      p_type r = Some "failure" ∨ p_type r = Some "correlation".
Proof.
  intros Hclaim.
  assert (∃ r, match_known_patterns world_after_success timing_analysis = Ok [r]
               ∧ p_type r = Some "success") as (r & Hmatch & Htype).
  { eexists. split; [vm_compute; reflexivity | reflexivity]. }
  destruct (Hclaim [r] r Hmatch (list_elem_of_here _ _)); congruence.
Qed.

(** ** Correlation with the last successful build *)

Lemma max_by_build_number_elem best l :
  max_by_build_number best l ∈ best :: l.
Proof.
  revert best. induction l as [|x l IH]; intros best; simpl.
  - apply list_elem_of_here.
  - destruct (build_number (build_info best) <? build_number (build_info x)).
    + apply list_elem_of_further, IH.
    + specialize (IH best). apply elem_of_cons in IH as [->|Hin].
      * apply list_elem_of_here.
      * by do 2 apply list_elem_of_further.
Qed.

Lemma max_by_build_number_ge best l x :
  x ∈ best :: l →
  build_number (build_info x)
  ≤ build_number (build_info (max_by_build_number best l)).
Proof.
  revert best x. induction l as [|y l IH]; intros best x; simpl.
  - intros ->%list_elem_of_singleton. lia.
  - intros Hin.
    destruct (Z.ltb_spec (build_number (build_info best))
                         (build_number (build_info y))) as [Hlt|Hge].
    + apply elem_of_cons in Hin as [->|Hin].
      * etrans; [|apply IH, list_elem_of_here]. lia.
      * by apply IH.
    + apply elem_of_cons in Hin as [->|Hin]; [apply IH, list_elem_of_here|].
      apply elem_of_cons in Hin as [->|Hin].
      * etrans; [exact Hge|]. apply IH, list_elem_of_here.
      * apply IH. by apply list_elem_of_further.
Qed.

Lemma elem_of_successful_analyses w a s :
  s ∈ successful_analyses w a
  ↔ ∃ key, (key, s) ∈ analysis_cache w ∧ is_prior_success a (key, s) = true.
Proof.
  unfold successful_analyses. rewrite list_elem_of_fmap. split.
  - intros ([key s'] & -> & Hin).
    apply list_elem_of_In, filter_In in Hin as [Hin Hf].
    exists key. by rewrite list_elem_of_In.
  - intros (key & Hin & Hf). exists (key, s). split; [done|].
    apply list_elem_of_In, filter_In. by rewrite <- list_elem_of_In.
Qed.

Lemma is_prior_success_iff a key s :
  is_prior_success a (key, s) = true
  ↔ startswith key (job_name (build_info a) +:+ "#") = true
    ∧ result (build_info s) = "SUCCESS"
    ∧ build_number (build_info s) < build_number (build_info a).
Proof.
  unfold is_prior_success. simpl.
  rewrite !andb_true_iff, String.eqb_eq, Z.ltb_lt. tauto.
Qed.

(** The solution of a correlation names a key exactly when both builds
    have it with different values, and maps it to the successful one. *)
Lemma lookup_revert_parameters (current success : params) k v :
  revert_parameters (_compare_build_parameters current success) !! k = Some v
  ↔ ∃ cur, current !! k = Some cur ∧ success !! k = Some v ∧ cur ≠ v.
Proof.
  unfold revert_parameters, _compare_build_parameters.
  rewrite lookup_omap, lookup_merge.
  destruct (current !! k) as [cur|], (success !! k) as [old|]; simpl.
  - destruct (decide (cur = old)) as [->|Hne]; simpl.
    + split; [done|]. intros (cur & [= <-] & [= <-] & Hne). done.
    + split.
      * intros [= <-]. by exists cur.
      * by intros (cur' & [= <-] & [= <-] & _).
  - split; [done | by intros (? & _ & ? & _)].
  - split; [done | by intros (? & ? & _)].
  - split; [done | by intros (? & ? & _)].
Qed.

Section correlation.
Context (ext : Externals).

(** C6. When [_correlate_failure_with_success] finds a prior successful
    build [s] and the parameters differ, [s] is a cached SUCCESS analysis of
    a lower build number filed under the job's key prefix, no other such
    analysis has a greater build number, and exactly one pattern is
    appended to the job's list: a correlation whose solution adjusts
    exactly the parameters present in both builds with different values,
    each to its value in [s]. *)
Theorem correlation_reverts_changed_parameters (now : Z) (a s : BuildAnalysis)
    (w : World) :
  latest_success w a = Some s →
  _compare_build_parameters (parameters (build_info a))
                            (parameters (build_info s)) ≠ ∅ →
  (∃ key, (key, s) ∈ analysis_cache w
          ∧ startswith key (job_name (build_info a) +:+ "#") = true)
  ∧ result (build_info s) = "SUCCESS"
  ∧ build_number (build_info s) < build_number (build_info a)
  ∧ (∀ key s',
       (key, s') ∈ analysis_cache w →
       startswith key (job_name (build_info a) +:+ "#") = true →
       result (build_info s') = "SUCCESS" →
       build_number (build_info s') < build_number (build_info a) →
       build_number (build_info s') ≤ build_number (build_info s))
  ∧ ∃ c sol m,
      job_patterns (job_name (build_info a))
        (_correlate_failure_with_success ext now a w)
      = job_patterns (job_name (build_info a)) w ++ [c]
      ∧ p_type c = Some "correlation"
      ∧ p_success_build c = Some (build_number (build_info s))
      ∧ p_solution c = Some sol
      ∧ s_type sol = Some "parameter_adjust"
      ∧ s_parameters sol = Some m
      ∧ ∀ k v,
          m !! k = Some v
          ↔ ∃ cur, parameters (build_info a) !! k = Some cur
                   ∧ parameters (build_info s) !! k = Some v ∧ cur ≠ v.
Proof.
  unfold latest_success, _correlate_failure_with_success.
  destruct (successful_analyses w a) as [|first others] eqn:Hsucc; [done|].
  intros [= <-] Hdiff.
  pose proof (max_by_build_number_elem first others) as Hin.
  rewrite <- Hsucc in Hin.
  apply elem_of_successful_analyses in Hin as (key & Hin & Hprior).
  apply is_prior_success_iff in Hprior as (Hpre & Hres & Hlt).
  split; [by exists key|]. split; [done|]. split; [done|]. split.
  - intros key' s' Hin' Hpre' Hres' Hlt'.
    apply max_by_build_number_ge. rewrite <- Hsucc.
    apply elem_of_successful_analyses. exists key'. split; [done|].
    by apply is_prior_success_iff.
  - rewrite decide_False by done. rewrite job_patterns_oset, decide_True by done.
    eexists _, _, _. repeat split; try reflexivity.
    + by intros ?%lookup_revert_parameters.
    + by intros ?%lookup_revert_parameters.
Qed.

End correlation.

Lemma deploy_diff_nonempty :
  _compare_build_parameters (parameters (build_info deploy_failure))
                            (parameters (build_info deploy_success)) ≠ ∅.
Proof.
  intros Hempty. apply (f_equal (λ m, m !! "env")) in Hempty.
  vm_compute in Hempty. discriminate.
Qed.

(** The example of the specification: the solution proposes [env -> prod]
    and does not mention [branch]. *)
Lemma deploy_correlation_example :
  revert_parameters
    (_compare_build_parameters staging_params prod_params) !! "env"
  = Some (AStr "prod")
  ∧ revert_parameters
      (_compare_build_parameters staging_params prod_params) !! "branch"
    = None.
Proof. split; vm_compute; reflexivity. Qed.

Lemma correlation_reverts_changed_parameters_witness :
  latest_success deploy_world deploy_failure = Some deploy_success
  ∧ _compare_build_parameters (parameters (build_info deploy_failure))
                              (parameters (build_info deploy_success)) ≠ ∅
  ∧ ∃ c sol m,
      job_patterns "deploy"
        (_correlate_failure_with_success quiet_externals 9 deploy_failure
           deploy_world)
      = job_patterns "deploy" deploy_world ++ [c]
      ∧ p_type c = Some "correlation"
      ∧ p_solution c = Some sol
      ∧ s_parameters sol = Some m
      ∧ m !! "env" = Some (AStr "prod")
      ∧ m !! "branch" = None.
Proof.
  assert (latest_success deploy_world deploy_failure = Some deploy_success)
    as Hlatest by (vm_compute; reflexivity).
  split; [exact Hlatest|]. split; [exact deploy_diff_nonempty|].
  destruct (correlation_reverts_changed_parameters quiet_externals 9
              deploy_failure deploy_success deploy_world Hlatest
              deploy_diff_nonempty)
    as (_ & _ & _ & _ & c & sol & m & Hjob & Htype & _ & Hsol & _ & Hm & Hiff).
  exists c, sol, m. repeat split; try done.
  - apply Hiff. exists (AStr "staging"). repeat split; done.
  - destruct (m !! "branch") as [v|] eqn:Hbranch; [|done].
    apply Hiff in Hbranch as (cur & Hcur & Hold & Hne).
    vm_compute in Hcur, Hold. congruence.
Defined.

(** ** Remediation of test failures *)

Lemma analyze_test_failures_atoms log :
  Forall is_atom (failed_tests (analyze_test_failures log)).
Proof.
  unfold analyze_test_failures. simpl.
  apply Forall_fmap, Forall_forall. intros g _. by eexists.
Qed.

Lemma py_get_atom_raises test key default_value :
  is_atom test → ∃ e, py_get test key default_value = Raise e.
Proof. intros [[| |] ->]; by eexists. Qed.

(** [handle_test_failures] raises on the entries the scraper produces. *)
Lemma handle_test_failures_raises a tr w :
  failed_tests tr ≠ [] → Forall is_atom (failed_tests tr) →
  ∃ e, handle_test_failures a tr w = (w, Raise e).
Proof.
  unfold handle_test_failures.
  destruct (failed_tests tr) as [|test tests]; [done|].
  intros _ [Htest _]%Forall_cons.
  destruct (py_get_atom_raises test "package" (AStr "unknown") Htest)
    as [e He].
  exists e. simpl. by rewrite He.
Qed.

(** Whenever the log yields a failing test, [handle_failure] ends with an
    exception: no path records the test handling or posts the build
    description. *)
Lemma handle_failure_raises ext now a w log :
  console_log (build_info a) = Some log →
  failed_tests (analyze_test_failures log) ≠ [] →
  ∃ w' e, handle_failure ext now a w = (w', Raise e).
Proof.
  intros Hlog Hfailed. unfold handle_failure.
  destruct (match_known_patterns w a) as [matches|e]; [|by eexists _, _].
  destruct (apply_matches ext now _ a matches w) as [w1 actions1].
  rewrite Hlog.
  destruct (analyze_build_time ext log); [|by eexists _, _].
  destruct (analyze_dependency_issues ext log); [|by eexists _, _].
  destruct (analyze_compilation_issues ext log); [|by eexists _, _].
  destruct (handle_test_failures_raises a (analyze_test_failures log) w1
              Hfailed (analyze_test_failures_atoms log)) as [e He].
  rewrite He.
  destruct (failed_tests (analyze_test_failures log)); [done|].
  by eexists _, _.
Qed.

(** C4 (the code departs from it). A log with four failing tests of
    [pkg.A] yields four test names; [handle_failure] records the
    ["pattern_match"] action of the known pattern and then raises in
    [handle_test_failures], which asks each name for its ['package']: no
    test-handling action is recorded. *)
Theorem handle_failure_stops_at_test_failures :
  failed_tests (analyze_test_failures four_failures_log)
  = [VAtom (AStr "pkg.A.t1"); VAtom (AStr "pkg.A.t2");
     VAtom (AStr "pkg.A.t3"); VAtom (AStr "pkg.A.t4")]
  ∧ ∃ w',
      handle_failure quiet_externals 10 four_failures_analysis
        (world_with_failure "HIGH" 0)
      = (w', Raise (AttributeError "'str' object has no attribute 'get'"))
      ∧ a_type <$> default [] (oget "job#5" (action_history w'))
        = [Some "pattern_match"]
      ∧ events w' = [].
Proof.
  split; [vm_compute; reflexivity|].
  eexists. split; [vm_compute; reflexivity|].
  split; vm_compute; reflexivity.
Qed.

(** On dictionaries, four failures of one package take the environmental
    branch: one action for the package, none per test. *)
Lemma handle_test_failures_environmental :
  handle_test_failures four_failures_analysis four_failures_dicts empty_world
  = (emit (EvCheckTestEnvironment "pkg.A") empty_world,
     Ok "Multiple failures in pkg.A - checking environment").
Proof. vm_compute. reflexivity. Qed.

(** ** Learning from successes *)

Lemma update_success_record_is_success_iff now k r :
  is_success_with k r ↔ is_success_with k (update_success_record now r).
Proof. done. Qed.




Section dispatch.
Context (ext : Externals).

Lemma job_patterns_update_success_patterns now a w j :
  job_patterns j (update_success_patterns ext now a w)
  = if decide (job_name (build_info a) = j)
    then foldl (record_indicator now a) (job_patterns j w)
               (_extract_success_indicators ext a)
    else job_patterns j w.
Proof.
  unfold update_success_patterns. rewrite job_patterns_oset.
  by case_decide; subst.
Qed.



End dispatch.


(** ** One pattern per key *)














(** ** The store invariant under every operation *)









Section store_invariant.
Context (ext : Externals).





Lemma find_success_update_success_patterns now a w k :
  find_success k
    (job_patterns (job_name (build_info a))
       (update_success_patterns ext now a w))
  = foldl (upsert_found i_pattern (update_success_record now)
             (new_success_pattern now a) k)
          (find_success k (job_patterns (job_name (build_info a)) w))
          (_extract_success_indicators ext a).
Proof.
  rewrite job_patterns_update_success_patterns, decide_True by done.
  apply (find_foldl_upsert i_pattern is_success_with
           (update_success_record now) (new_success_pattern now a)).
  - intros. apply update_success_record_is_success_iff.
  - done.
  - by intros k1 k2 r [_ H1] [_ H2]; congruence.
Qed.

End store_invariant.


Section one_pattern_per_key.
Context (ext : Externals).


End one_pattern_per_key.


(** What the sample run leaves for ["job"]: the failure pattern of ["E"]
    seen three times, the two success patterns seen twice, and the two
    patterns without a ['type'] that the refresh passes promoted. *)
Lemma sample_ops_store :
  (λ r, (p_type r, p_pattern r, p_frequency r))
  <$> job_patterns "job" (run_ops quiet_externals sample_ops empty_world)
  = [(Some "failure", "E", 3);
     (Some "success", "timing_normal", 2);
     (Some "success", "log_success_build_successful", 2);
     (None, "E", 3);
     (None, "E", 3)].
Proof. vm_compute. reflexivity. Qed.

(** * Further properties of the code *)

(** ** The sweep of the analysis cache *)

Section odel_facts.
Context {V : Type}.
Implicit Types (d : odict string V) (k : string).

Lemma oget_odel_ne k k' d : k ≠ k' → oget k' (odel k d) = oget k' d.
Proof.
  intros Hne. induction d as [|[k0 v0] d IH]; [done|]. simpl.
  destruct (decide (k0 = k)) as [->|Hk0]; simpl.
  - by rewrite decide_False.
  - by rewrite IH.
Qed.

Lemma oget_odel_eq k d : NoDup (okeys d) → oget k (odel k d) = None.
Proof.
  unfold okeys. induction d as [|[k0 v0] d IH]; [done|].
  rewrite fmap_cons, NoDup_cons. intros [Hnotin Hnd]. simpl.
  destruct (decide (k0 = k)) as [->|Hk0]; simpl.
  - by apply oget_None_notin.
  - rewrite decide_False by done. by apply IH.
Qed.

Lemma okeys_odel_subseteq k d : okeys (odel k d) ⊆ okeys d.
Proof.
  unfold okeys. induction d as [|[k0 v0] d IH]; [done|]. simpl.
  destruct (decide (k0 = k)); simpl.
  - intros x Hx. by apply list_elem_of_further.
  - intros x [->|Hx]%elem_of_cons; [apply list_elem_of_here|].
    apply list_elem_of_further. by apply IH.
Qed.

Lemma NoDup_okeys_odel k d : NoDup (okeys d) → NoDup (okeys (odel k d)).
Proof.
  unfold okeys. induction d as [|[k0 v0] d IH]; [done|].
  rewrite fmap_cons, NoDup_cons. intros [Hnotin Hnd]. simpl.
  destruct (decide (k0 = k)); [done|].
  rewrite fmap_cons. apply NoDup_cons. split; [|by apply IH].
  intros Hin. apply Hnotin. by apply (okeys_odel_subseteq k d).
Qed.

Lemma oget_foldl_odel k ks d :
  NoDup (okeys d) →
  oget k (foldl (λ c key, odel key c) d ks)
  = if decide (k ∈ ks) then None else oget k d.
Proof.
  revert d. induction ks as [|k0 ks IH]; intros d Hnd; cbn [foldl].
  - destruct (decide (k ∈ [])) as [Hin|]; [by apply elem_of_nil in Hin | done].
  - rewrite IH by by apply NoDup_okeys_odel.
    destruct (decide (k = k0)) as [->|Hne].
    + rewrite (decide_True (P := k0 ∈ k0 :: ks)) by apply list_elem_of_here.
      rewrite oget_odel_eq by done. by case_decide.
    + rewrite oget_odel_ne by done.
      destruct (decide (k ∈ ks)) as [Hin|Hnotin].
      * by rewrite decide_True by by apply list_elem_of_further.
      * rewrite decide_False; [done|].
        by intros [?|?]%elem_of_cons.
Qed.

Lemma oget_Some_iff_elem k v d :
  NoDup (okeys d) → oget k d = Some v ↔ (k, v) ∈ d.
Proof.
  intros Hnd. split; [apply oget_Some_elem|].
  unfold okeys in Hnd. induction d as [|[k0 v0] d IH]; [by intros ?%elem_of_nil|].
  rewrite fmap_cons, NoDup_cons in Hnd. destruct Hnd as [Hnotin Hnd].
  intros [[= -> ->]|Hin]%elem_of_cons; simpl.
  - by rewrite decide_True.
  - rewrite decide_False; [by apply IH|].
    intros ->. apply Hnotin. apply list_elem_of_fmap. by exists (k, v).
Qed.
End odel_facts.

(** X1. With the keys of the cache distinct, one sweep of [cleanup_cache]
    deletes exactly the entries with [now - timestamp > 7 days]: an entry of
    exactly seven days, like every younger one, is still found under its
    key, with the same analysis. *)
Theorem cleanup_cache_once_spec (now : Z) (w : World) (key : string) :
  NoDup (okeys (analysis_cache w)) →
  oget key (analysis_cache (cleanup_cache_once now w))
  = match oget key (analysis_cache w) with
    | Some a => if days 7 <? now - timestamp a then None else Some a
    | None => None
    end.
Proof.
  intros Hnd. unfold cleanup_cache_once.
  cbn [set_analysis_cache analysis_cache].
  rewrite oget_foldl_odel by done.
  destruct (oget key (analysis_cache w)) as [a|] eqn:Hget.
  - apply (oget_Some_iff_elem _ _ _ Hnd) in Hget as Hin.
    destruct (days 7 <? now - timestamp a) eqn:Hexp.
    + rewrite decide_True; [done|].
      apply list_elem_of_fmap. exists (key, a). split; [done|].
      apply list_elem_of_In, filter_In. split; [by apply list_elem_of_In|done].
    + rewrite decide_False; [done|].
      intros ([k' a'] & Hk & Hin')%list_elem_of_fmap. simpl in Hk. subst k'.
      apply list_elem_of_In, filter_In in Hin' as [Hin' Hexp'].
      apply list_elem_of_In, (oget_Some_iff_elem _ _ _ Hnd) in Hin'.
      unfold analysis_is_expired in Hexp'. simpl in Hexp'. congruence.
  - by case_decide.
Qed.

Lemma cleanup_cache_once_spec_witness :
  NoDup (okeys (analysis_cache week_old_world))
  ∧ oget "job#1" (analysis_cache (cleanup_cache_once (days 10) week_old_world))
    = Some (week_old_analysis (days 7))
  ∧ oget "job#2" (analysis_cache (cleanup_cache_once (days 10) week_old_world))
    = None.
Proof.
  assert (NoDup (okeys (analysis_cache week_old_world))) as Hnd.
  { refine (bool_decide_unpack _ _). vm_compute. exact I. }
  split; [exact Hnd|]. split.
  - rewrite (cleanup_cache_once_spec (days 10) week_old_world "job#1" Hnd).
    vm_compute. reflexivity.
  - rewrite (cleanup_cache_once_spec (days 10) week_old_world "job#2" Hnd).
    vm_compute. reflexivity.
Defined.

(** ** The parameter diff *)

Lemma diff_entry_None (current success : option atom) :
  diff_entry current success = None ↔ current = success.
Proof.
  destruct current as [c|], success as [s|]; simpl; try done.
  destruct (decide (c = s)) as [->|Hne]; [done|].
  split; [done | by intros [= ?]].
Qed.

Lemma compare_build_parameters_empty (current success : params) :
  _compare_build_parameters current success = ∅ ↔ current = success.
Proof.
  unfold _compare_build_parameters. split.
  - intros Hempty. apply map_eq. intros k.
    apply (f_equal (λ m, m !! k)) in Hempty.
    rewrite lookup_merge, lookup_empty in Hempty.
    destruct (current !! k) as [c|] eqn:Hc, (success !! k) as [s|] eqn:Hs;
      simpl in Hempty; try done.
    by apply (diff_entry_None (Some c) (Some s)) in Hempty.
  - intros ->. apply map_eq. intros k.
    rewrite lookup_merge, lookup_empty.
    destruct (success !! k) as [s|]; simpl; [|done].
    by rewrite decide_True.
Qed.

(** X2. The diff of two parameter maps is empty exactly when the maps are
    equal. *)
Theorem compare_build_parameters_empty_iff (current success : params) :
  _compare_build_parameters current success = ∅ ↔ current = success.
Proof. exact (compare_build_parameters_empty current success). Qed.

(** X3. Comparing the builds the other way round gives the same keys: an
    ['added'] parameter becomes ['removed'] and conversely, and the old and
    new values of every entry trade places. *)
Theorem compare_build_parameters_flip (current success : params) (k : string) :
  _compare_build_parameters success current !! k
  = flip_entry <$> _compare_build_parameters current success !! k.
Proof.
  unfold _compare_build_parameters. rewrite !lookup_merge.
  destruct (current !! k) as [c|], (success !! k) as [s|]; simpl; try done.
  destruct (decide (s = c)) as [->|Hne].
  - by rewrite decide_True.
  - by rewrite decide_False by congruence.
Qed.

Section correlation_count.
Context (ext : Externals).

(** X4. [_correlate_failure_with_success] lengthens the job's list by one
    when the cache holds a prior successful build whose parameters differ
    from the failing build's, and leaves the list as it is otherwise: with
    no prior success, or with equal parameters, no correlation is
    recorded. *)
Theorem correlate_appends_when_due (now : Z) (a : BuildAnalysis) (w : World) :
  length (job_patterns (job_name (build_info a))
            (_correlate_failure_with_success ext now a w))
  = (length (job_patterns (job_name (build_info a)) w)
     + correlations_due w a)%nat.
Proof.
  unfold _correlate_failure_with_success, correlations_due, latest_success.
  destruct (successful_analyses w a) as [|first others]; [simpl; lia|].
  destruct (decide (parameters (build_info a)
                    = parameters (build_info (max_by_build_number first others))))
    as [Heq|Hne].
  - rewrite decide_True by by apply compare_build_parameters_empty. lia.
  - rewrite decide_False by by rewrite compare_build_parameters_empty.
    rewrite job_patterns_oset, decide_True by done.
    rewrite length_app. unfold job_patterns. simpl. lia.
Qed.

End correlation_count.

(** ** The rule table of initial solutions *)

Lemma lower_app (a b : string) : lower (a +:+ b) = lower a +:+ lower b.
Proof. induction a as [|c a IH]; simpl; [done | by rewrite IH]. Qed.

Lemma prefix_app (n b : string) : String.prefix n (n +:+ b) = true.
Proof.
  induction n as [|c n IH]; simpl; [by destruct b|].
  destruct (ascii_dec c c); [exact IH | done].
Qed.

Lemma contains_prefix (n h : string) :
  String.prefix n h = true → contains n h = true.
Proof.
  intros Hpre. destruct h as [|c h].
  - by destruct n.
  - unfold contains; fold contains. by rewrite Hpre.
Qed.

Lemma contains_here (n b : string) : contains n (n +:+ b) = true.
Proof. apply contains_prefix, prefix_app. Qed.

Lemma contains_app (n a b : string) : contains n (a +:+ n +:+ b) = true.
Proof.
  induction a as [|c a IH]; [exact (contains_here n b)|].
  change (contains n (String c (a +:+ n +:+ b)) = true).
  unfold contains; fold contains. rewrite IH. apply orb_true_r.
Qed.

(** X5. For an error whose type has no rule of its own, the word
    "timeout" anywhere in the pattern, in any letter case, selects the
    timeout adjustment, whatever else the pattern mentions (the memory
    rule comes later). *)
Theorem derive_initial_solution_timeout (ep : ErrorPattern)
    (pre word post : string) :
  default "unknown" (ep_type ep) ∉ typed_errors →
  pattern_key ep = pre +:+ word +:+ post →
  lower word = "timeout" →
  _derive_initial_solution ep
  = Some (mk_solution "parameter_adjust"
            (Some {[ "timeout" := AStr "1800" ]}) None
            "Increase timeout for long-running builds" None).
Proof.
  intros Htype Hkey Hword. unfold _derive_initial_solution.
  fold (pattern_key ep). rewrite Hkey.
  destruct (String.eqb_spec (default "unknown" (ep_type ep)) "test_failure")
    as [Heq|_].
  { exfalso. apply Htype. rewrite Heq. apply list_elem_of_here. }
  destruct (String.eqb_spec (default "unknown" (ep_type ep)) "dependency_issue")
    as [Heq|_].
  { exfalso. apply Htype. rewrite Heq.
    apply list_elem_of_further, list_elem_of_here. }
  destruct (String.eqb_spec (default "unknown" (ep_type ep)) "compilation_error")
    as [Heq|_].
  { exfalso. apply Htype. rewrite Heq.
    do 2 apply list_elem_of_further. apply list_elem_of_here. }
  rewrite !lower_app, Hword. by rewrite contains_app.
Qed.

Lemma derive_initial_solution_timeout_witness :
  (default "unknown" (ep_type timeout_error) ∉ typed_errors)
  ∧ pattern_key timeout_error
    = "java.lang.OutOfMemoryError: OOM after Build " +:+ "TimeOut" +:+ ""
  ∧ lower "TimeOut" = "timeout"
  ∧ _derive_initial_solution timeout_error
    = Some (mk_solution "parameter_adjust"
              (Some {[ "timeout" := AStr "1800" ]}) None
              "Increase timeout for long-running builds" None).
Proof.
  assert (default "unknown" (ep_type timeout_error) ∉ typed_errors) as Htype.
  { unfold typed_errors. simpl. rewrite !not_elem_of_cons.
    repeat split; try discriminate. apply not_elem_of_nil. }
  split; [exact Htype|]. split; [reflexivity|]. split; [reflexivity|].
  exact (derive_initial_solution_timeout timeout_error
           "java.lang.OutOfMemoryError: OOM after Build " "TimeOut" ""
           Htype eq_refl eq_refl).
Defined.

(** ** Success patterns: one count per build, a rate of at most one *)

Lemma NoDup_app_heads (c : ascii) (l1 l2 : list string) :
  Forall (λ s, head_char s = Some c) l1 →
  Forall (λ s, head_char s ≠ Some c) l2 →
  NoDup l1 → NoDup l2 → NoDup (l1 ++ l2).
Proof.
  intros H1 H2 Hnd1 Hnd2. apply NoDup_app. repeat split; try done.
  intros s Hs1 Hs2. rewrite Forall_forall in H1, H2.
  by apply (H2 s Hs2), H1.
Qed.

Lemma log_indicator_keys_NoDup log :
  NoDup (i_pattern <$> _extract_log_success_indicators log).
Proof.
  unfold _extract_log_success_indicators, success_patterns.
  cbn [List.filter].
  repeat match goal with
         | |- context [if contains ?n ?h then _ else _] =>
             destruct (contains n h)
         end;
    refine (bool_decide_unpack _ _); vm_compute; exact I.
Qed.

Lemma log_indicator_keys_head log :
  Forall (λ s, head_char s = Some "l"%char)
         (i_pattern <$> _extract_log_success_indicators log).
Proof.
  unfold _extract_log_success_indicators.
  apply Forall_fmap, Forall_fmap, Forall_forall. by intros p _.
Qed.

(** The indicators of one build have distinct keys. *)
Lemma indicator_keys_NoDup ext a : NoDup (indicator_keys ext a).
Proof.
  unfold indicator_keys, _extract_success_indicators. rewrite !fmap_app.
  apply (NoDup_app_heads "s").
  - case_decide; by repeat constructor.
  - apply Forall_app. split.
    + destruct (duration (build_info a) =? 0); [constructor|].
      by destruct (duration (build_info a) <? 300); repeat constructor.
    + destruct (console_log (build_info a)) as [log|]; [|constructor].
      destruct (String.eqb log ""); [constructor|].
      eapply Forall_impl; [apply log_indicator_keys_head|].
      intros s Hs. by rewrite Hs.
  - case_decide; [apply NoDup_nil_2 | apply NoDup_singleton].
  - apply (NoDup_app_heads "t").
    + destruct (duration (build_info a) =? 0); [constructor|].
      by destruct (duration (build_info a) <? 300); repeat constructor.
    + destruct (console_log (build_info a)) as [log|]; [|constructor].
      destruct (String.eqb log ""); [constructor|].
      eapply Forall_impl; [apply log_indicator_keys_head|].
      intros s Hs. by rewrite Hs.
    + destruct (duration (build_info a) =? 0);
        [apply NoDup_nil_2 | apply NoDup_singleton].
    + destruct (console_log (build_info a)) as [log|]; [|apply NoDup_nil_2].
      destruct (String.eqb log ""); [apply NoDup_nil_2|].
      apply log_indicator_keys_NoDup.
Qed.

Lemma count_key_NoDup {E} (f : E → string) (k : string) (l : list E) :
  NoDup (f <$> l) →
  length (filter (λ e, f e = k) l)
  = if decide (k ∈ f <$> l) then 1%nat else 0%nat.
Proof.
  induction l as [|e l IH]; [done|].
  rewrite fmap_cons, NoDup_cons. intros [Hnotin Hnd].
  destruct (decide (f e = k)) as [<-|Hne].
  - rewrite filter_cons_True by done.
    rewrite decide_True by apply list_elem_of_here.
    rewrite (decide_False (P := f e ∈ f <$> l)) in IH by done.
    simpl. by rewrite IH.
  - rewrite filter_cons_False by done. rewrite IH by done.
    destruct (decide (k ∈ f <$> l)) as [Hin|Hnin].
    + by rewrite decide_True by by apply list_elem_of_further.
    + rewrite decide_False; [done|]. by intros [?|?]%elem_of_cons.
Qed.

Section success_counts.
Context (ext : Externals).

(** X6. One call of [update_success_patterns] raises by exactly one the
    frequency of the success pattern of each indicator of the build (a
    pattern that did not exist starts at one), and leaves the frequency of
    every other success pattern of the job as it was. *)
Theorem update_success_patterns_counts_builds (now : Z) (a : BuildAnalysis)
    (w : World) (key : string) :
  frequency_of
    (find_success key
       (job_patterns (job_name (build_info a))
          (update_success_patterns ext now a w)))
  = frequency_of
      (find_success key (job_patterns (job_name (build_info a)) w))
    + (if decide (key ∈ indicator_keys ext a) then 1 else 0).
Proof.
  rewrite find_success_update_success_patterns.
  unfold frequency_of.
  rewrite (measure_foldl_upsert_found i_pattern (update_success_record now)
             (new_success_pattern now a) p_frequency) by done.
  rewrite (count_key_NoDup i_pattern key) by apply indicator_keys_NoDup.
  fold (indicator_keys ext a). by case_decide.
Qed.

End success_counts.

Lemma float_ltb_leb (x y : float) :
  PrimFloat.ltb x y = true → PrimFloat.leb x y = true.
Proof.
  rewrite ltb_spec, leb_spec. unfold SpecFloat.SFltb, SpecFloat.SFleb.
  by destruct (SpecFloat.SFcompare (Prim2SF x) (Prim2SF y)) as [[]|].
Qed.

Lemma bump_success_rate_le_1 (rate : float) :
  PrimFloat.leb (bump_success_rate rate) 1 = true.
Proof.
  unfold bump_success_rate.
  destruct (PrimFloat.ltb (rate + 0.1) 1) eqn:Hlt.
  - by apply float_ltb_leb.
  - reflexivity.
Qed.

Section success_rate.
Context (ext : Externals).

(** X7. After [update_success_patterns], the success pattern of every
    indicator of the build has a [success_rate], and it is at most 1.0,
    whatever rate (or none) the pattern had before. *)
Theorem success_rate_at_most_one (now : Z) (a : BuildAnalysis) (w : World)
    (key : string) :
  key ∈ indicator_keys ext a →
  ∃ r rate,
    find_success key
      (job_patterns (job_name (build_info a))
         (update_success_patterns ext now a w))
    = Some r
    ∧ p_success_rate r = Some rate
    ∧ PrimFloat.leb rate 1 = true.
Proof.
  intros Hkey. rewrite find_success_update_success_patterns.
  destruct (established_foldl_upsert_found i_pattern
              (update_success_record now) (new_success_pattern now a)
              (λ r, ∃ rate, p_success_rate r = Some rate
                            ∧ PrimFloat.leb rate 1 = true)
              key (_extract_success_indicators ext a)
              (find_success key (job_patterns (job_name (build_info a)) w)))
    as (r & Hr & rate & Hrate & Hle).
  - intros r. eexists. split; [done|]. apply bump_success_rate_le_1.
  - intros e. by eexists.
  - right. rewrite (count_key_NoDup i_pattern key)
      by apply indicator_keys_NoDup.
    fold (indicator_keys ext a). rewrite decide_True by done. lia.
  - by exists r, rate.
Qed.

End success_rate.

Lemma success_rate_at_most_one_witness :
  "timing_normal" ∈ indicator_keys quiet_externals (passing_analysis 3)
  ∧ ∃ r rate,
      find_success "timing_normal"
        (job_patterns "job"
           (update_success_patterns quiet_externals 9 (passing_analysis 3)
              world_after_success))
      = Some r
      ∧ p_success_rate r = Some rate
      ∧ PrimFloat.leb rate 1 = true.
Proof.
  assert ("timing_normal" ∈ indicator_keys quiet_externals (passing_analysis 3))
    as Hkey by (vm_compute; apply list_elem_of_here).
  split; [exact Hkey|].
  exact (success_rate_at_most_one quiet_externals 9 (passing_analysis 3)
           world_after_success "timing_normal" Hkey).
Defined.

(** ** Batch extraction and refresh: promoted patterns, malformed entries *)

(** The rule of promotion at three analyses that list the key twice
    each. *)
Lemma extract_patterns_promotes_witness :
  Forall well_keyed three_doubled
  ∧ ∃ promoted,
      extract_patterns 10 three_doubled = Ok promoted
      ∧ with_pattern "E" promoted
        = if decide (3 ≤ total_occurrences "E" three_doubled)%nat
          then [promoted_pattern 10 three_doubled "E"
                  (Z.of_nat (total_occurrences "E" three_doubled))]
          else [].
Proof.
  assert (Forall well_keyed three_doubled) as Hkeys.
  { repeat constructor; by eexists. }
  split; [exact Hkeys|].
  exact (extract_patterns_promotes 10 three_doubled "E" Hkeys).
Defined.

Lemma count_errors_raises eps counts :
  ¬ Forall (λ ep, is_Some (ep_pattern ep)) eps →
  count_errors eps counts = Raise (KeyError "pattern").
Proof.
  revert counts. induction eps as [|ep eps IH]; intros counts Hnot.
  - exfalso. apply Hnot. constructor.
  - simpl. destruct (ep_pattern ep) as [key|] eqn:Hkey; [|done].
    apply IH. intros Hall. apply Hnot. constructor; [by rewrite Hkey|done].
Qed.

Lemma count_errors_only_key_error eps counts e :
  count_errors eps counts = Raise e → e = KeyError "pattern".
Proof.
  revert counts. induction eps as [|ep eps IH]; intros counts; simpl; [done|].
  destruct (ep_pattern ep); [apply IH | by intros [= <-]].
Qed.

Lemma count_analyses_raises analyses counts :
  Exists (λ a, ¬ well_keyed a) analyses →
  count_analyses analyses counts = Raise (KeyError "pattern").
Proof.
  intros Hex. revert counts.
  induction analyses as [|a analyses IH]; intros counts;
    [by apply Exists_nil in Hex|].
  simpl.
  destruct (count_errors (error_patterns a) counts) as [counts'|e] eqn:Hrun;
    simpl.
  - apply Exists_cons in Hex as [Hnot|Hex]; [|by apply IH].
    by rewrite count_errors_raises in Hrun.
  - f_equal. by eapply count_errors_only_key_error.
Qed.

Lemma extract_patterns_raises now analyses :
  Exists (λ a, ¬ well_keyed a) analyses →
  extract_patterns now analyses = Raise (KeyError "pattern").
Proof.
  intros Hex. unfold extract_patterns. by rewrite count_analyses_raises.
Qed.

Lemma extract_patterns_only_key_error now analyses e :
  extract_patterns now analyses = Raise e → e = KeyError "pattern".
Proof.
  unfold extract_patterns. revert e.
  assert (∀ counts e, count_analyses analyses counts = Raise e
                      → e = KeyError "pattern") as Hcount.
  { induction analyses as [|a analyses IH]; intros counts e; simpl; [done|].
    destruct (count_errors (error_patterns a) counts) eqn:Hrun; simpl.
    - apply IH.
    - intros [= <-]. by eapply count_errors_only_key_error. }
  intros e. destruct (count_analyses analyses []) eqn:Hrun; simpl; [done|].
  intros [= <-]. by eapply Hcount.
Qed.

Lemma refresh_job_raises now job w :
  malformed_for job (analysis_cache w) →
  refresh_job now job w = Raise (KeyError "pattern").
Proof.
  intros Hbad. unfold refresh_job.
  assert (Exists (λ a, ¬ well_keyed a)
            (List.filter (λ e : string * BuildAnalysis,
                            startswith e.1 (job +:+ "#"))
                         (analysis_cache w)).*2) as Hex.
  { unfold malformed_for in Hbad.
    induction Hbad as [[k a] cache [Hpre Hnot]|[k a] cache _ IH]; simpl.
    - simpl in Hpre. rewrite Hpre. by left.
    - destruct (startswith k (job +:+ "#")); [by right | done]. }
  destruct ((List.filter _ (analysis_cache w)).*2) as [|a recent];
    [by apply Exists_nil in Hex|].
  by rewrite extract_patterns_raises.
Qed.

Lemma refresh_job_frame now job w w' :
  refresh_job now job w = Ok w' →
  analysis_cache w' = analysis_cache w
  ∧ ∀ j, job_patterns j w `prefix_of` job_patterns j w'.
Proof.
  unfold refresh_job.
  destruct ((List.filter _ (analysis_cache w)).*2) as [|a recent].
  { intros [= <-]. by split. }
  destruct (extract_patterns now (a :: recent)) as [promoted|]; [|done].
  intros [= <-]. split; [done|]. intros j. rewrite job_patterns_oset.
  case_decide as Hj; [|done]. subst j. by apply prefix_app_r.
Qed.

Lemma refresh_jobs_raises now jobs w :
  Exists (λ job, malformed_for job (analysis_cache w)) jobs →
  ∃ w',
    refresh_jobs now jobs w = (w', Some (KeyError "pattern"))
    ∧ ∀ j, job_patterns j w `prefix_of` job_patterns j w'.
Proof.
  revert w. induction jobs as [|job jobs IH]; intros w Hex;
    [by apply Exists_nil in Hex|].
  simpl. destruct (refresh_job now job w) as [w1|e] eqn:Hjob.
  - apply Exists_cons in Hex as [Hbad|Hex];
      [by rewrite refresh_job_raises in Hjob|].
    destruct (refresh_job_frame _ _ _ _ Hjob) as [Hcache Hpre].
    destruct (IH w1) as (w' & Hrun & Hpre'); [by rewrite Hcache|].
    exists w'. split; [done|]. intros j.
    destruct (Hpre j) as [k1 H1], (Hpre' j) as [k2 H2].
    exists (k1 ++ k2). by rewrite H2, H1, (assoc_L (++)).
  - exists w. split; [|done]. f_equal. f_equal.
    unfold refresh_job in Hjob.
    destruct ((List.filter _ (analysis_cache w)).*2) as [|a0 recent]; [done|].
    destruct (extract_patterns now (a0 :: recent)) eqn:Hextract; [done|].
    injection Hjob as <-. by eapply extract_patterns_only_key_error.
Qed.

(** X9. When the cache holds, for some job of the store, an analysis with
    an entry that lacks ['pattern'], one turn of [update_pattern_database]
    ends in the logged exception before [cleanup_patterns] runs: every
    job's list keeps all the patterns it had, however old, as a prefix of
    what it holds afterwards. *)
Theorem malformed_analysis_blocks_cleanup (now : Z) (w : World) :
  Exists (λ job, malformed_for job (analysis_cache w))
         (okeys (pattern_database w)) →
  ∃ w',
    update_pattern_database_once now w
    = emit (EvLogError "Error updating pattern database") w'
    ∧ ∀ j,
        job_patterns j w
        `prefix_of` job_patterns j (update_pattern_database_once now w).
Proof.
  intros Hex. unfold update_pattern_database_once.
  destruct (refresh_jobs_raises now _ w Hex) as (w' & -> & Hpre).
  exists w'. by split.
Qed.

Lemma malformed_analysis_blocks_cleanup_witness :
  Exists (λ job, malformed_for job (analysis_cache malformed_world))
         (okeys (pattern_database malformed_world))
  ∧ job_patterns "job" malformed_world
    `prefix_of`
    job_patterns "job" (update_pattern_database_once (days 400) malformed_world).
Proof.
  assert (Exists (λ job, malformed_for job (analysis_cache malformed_world))
            (okeys (pattern_database malformed_world))) as Hex.
  { left. left. split; [reflexivity|].
    intros [[x Hx] _]%Forall_cons. discriminate Hx. }
  split; [exact Hex|].
  destruct (malformed_analysis_blocks_cleanup (days 400) malformed_world Hex)
    as (w' & _ & Hpre).
  apply Hpre.
Defined.

(** ** What remediation and learning leave alone *)

Lemma only_appends_refl w : only_appends w w.
Proof. by repeat split. Qed.

Lemma prefix_of_trans {A} (l1 l2 l3 : list A) :
  l1 `prefix_of` l2 → l2 `prefix_of` l3 → l1 `prefix_of` l3.
Proof.
  intros [k1 ->] [k2 ->]. exists (k1 ++ k2). by rewrite (assoc_L (++)).
Qed.

Lemma only_appends_trans w1 w2 w3 :
  only_appends w1 w2 → only_appends w2 w3 → only_appends w1 w3.
Proof.
  intros (Hdb & Hc & Hl & Ha & He) (Hdb' & Hc' & Hl' & Ha' & He').
  split; [congruence|]. split; [congruence|]. split; [congruence|].
  split; [|exact (prefix_of_trans _ _ _ He He')].
  intros key. exact (prefix_of_trans _ _ _ (Ha key) (Ha' key)).
Qed.

Lemma only_appends_emit e w : only_appends w (emit e w).
Proof.
  repeat split; try done. by apply prefix_app_r.
Qed.

Lemma only_appends_record_action now key action w :
  only_appends w (_record_action now key action w).
Proof.
  repeat split; try done. intros k. unfold actions_of, _record_action. simpl.
  destruct (decide (key = k)) as [->|Hne].
  - rewrite oget_oset_eq. simpl. by apply prefix_app_r.
  - by rewrite oget_oset_ne.
Qed.

Section frames.
Context (ext : Externals).

Lemma only_appends_apply_known_solution now pattern a w :
  only_appends w (apply_known_solution ext now pattern a w).1.
Proof.
  unfold apply_known_solution.
  destruct (solution_is_empty (p_solution pattern)); [apply only_appends_refl|].
  repeat case_decide; simpl;
    (eapply only_appends_trans; [|apply only_appends_record_action]);
    try apply only_appends_emit; apply only_appends_refl.
Qed.

Lemma only_appends_apply_matches now key a matches w :
  only_appends w (apply_matches ext now key a matches w).1.
Proof.
  revert w. induction matches as [|pattern rest IH]; intros w; simpl;
    [apply only_appends_refl|].
  pose proof (only_appends_apply_known_solution now pattern a w) as H1.
  destruct (apply_known_solution ext now pattern a w) as [w1 action].
  specialize (IH (_record_action now key
                    (mk_action (Some "pattern_match") (Some (p_pattern pattern))
                               (Some action) None None) w1)).
  destruct (apply_matches ext now key a rest _) as [w3 actions]. simpl in *.
  eapply only_appends_trans; [exact H1|].
  eapply only_appends_trans; [apply only_appends_record_action | exact IH].
Qed.

Lemma only_appends_analyze_each tests w :
  only_appends w (analyze_each tests w).1.
Proof.
  revert w. induction tests as [|test rest IH]; intros w; simpl;
    [apply only_appends_refl|].
  destruct (py_get test "name" ANone) as [name|e]; [|apply only_appends_refl].
  specialize (IH (emit (EvAnalyzeTestFailure (py_str name)) w)).
  destruct (analyze_each rest _) as [w2 [actions|e]]; simpl in *;
    (eapply only_appends_trans; [apply only_appends_emit | exact IH]).
Qed.

Lemma only_appends_handle_groups groups w :
  only_appends w (handle_groups groups w).1.
Proof.
  revert w. induction groups as [|[group tests] rest IH]; intros w; simpl;
    [apply only_appends_refl|].
  assert (∃ w1 here,
             (if (3 <? length tests)%nat
              then (emit (EvCheckTestEnvironment (py_str group)) w,
                    Ok ["Multiple failures in " +:+ py_str group
                        +:+ " - checking environment"])
              else analyze_each tests w) = (w1, here)
             ∧ only_appends w w1) as (w1 & here & -> & H1).
  { destruct (3 <? length tests)%nat.
    - eexists _, _. split; [done|]. apply only_appends_emit.
    - pose proof (only_appends_analyze_each tests w).
      destruct (analyze_each tests w). by eexists _, _. }
  destruct here as [actions|e]; [|exact H1].
  specialize (IH w1).
  destruct (handle_groups rest w1) as [w2 [actions'|e]]; simpl in *;
    by eapply only_appends_trans.
Qed.

Lemma only_appends_handle_test_failures a tr w :
  only_appends w (handle_test_failures a tr w).1.
Proof.
  unfold handle_test_failures.
  destruct (failed_tests tr) as [|test tests]; [apply only_appends_refl|].
  destruct (group_tests (test :: tests) []) as [groups|e];
    [|apply only_appends_refl].
  pose proof (only_appends_handle_groups groups w).
  by destruct (handle_groups groups w) as [w' [actions|e]].
Qed.

Lemma only_appends_handle_failure (now : Z) (a : BuildAnalysis) (w : World) :
  only_appends w (handle_failure ext now a w).1.
Proof.
  unfold handle_failure.
  destruct (match_known_patterns w a) as [matches|e];
    [|apply only_appends_refl].
  pose proof (only_appends_apply_matches now
                (build_key (job_name (build_info a))
                           (build_number (build_info a))) a matches w) as H1.
  destruct (apply_matches ext now _ a matches w) as [w1 actions1].
  simpl in H1.
  destruct (console_log (build_info a)) as [log|]; [|exact H1].
  destruct (analyze_build_time ext log); [|exact H1].
  destruct (analyze_dependency_issues ext log) as [deps|]; [|exact H1].
  destruct (analyze_compilation_issues ext log) as [comps|]; [|exact H1].
  assert (∃ w2 r,
             match failed_tests (analyze_test_failures log) with
             | [] => (w1, Ok [])
             | _ :: _ =>
                 match handle_test_failures a (analyze_test_failures log) w1 with
                 | (w', Raise e) => (w', Raise e)
                 | (w', Ok action) =>
                     (_record_action now
                        (build_key (job_name (build_info a))
                                   (build_number (build_info a)))
                        (mk_action (Some "test_failure") None (Some action)
                           None (Some (DTests (analyze_test_failures log)))) w',
                      Ok [action])
                 end
             end = (w2, r) ∧ only_appends w1 w2) as (w2 & r & -> & H2).
  { destruct (failed_tests (analyze_test_failures log)).
    - eexists _, _. split; [done | apply only_appends_refl].
    - pose proof (only_appends_handle_test_failures a
                    (analyze_test_failures log) w1) as Ht.
      destruct (handle_test_failures a (analyze_test_failures log) w1)
        as [w' [action|e]]; eexists _, _; (split; [done|]); [|exact Ht].
      eapply only_appends_trans; [exact Ht|].
      apply only_appends_record_action. }
  destruct r as [actions2|e]; [|by eapply only_appends_trans].
  eapply only_appends_trans; [exact H1|].
  eapply only_appends_trans; [exact H2|].
  destruct deps as [|dep deps], comps as [|comp comps];
    destruct (jenkins_update_build_description ext _ _ _); simpl;
    repeat first
      [ apply only_appends_refl
      | apply only_appends_emit
      | apply only_appends_record_action
      | eapply only_appends_trans; [|apply only_appends_emit]
      | eapply only_appends_trans; [|apply only_appends_record_action] ].
Qed.

(** X12. Whatever it is given and whether or not it raises,
    [handle_failure] leaves the pattern database, the analysis cache and
    the learning flag as they were; under every build key the actions
    recorded before are a prefix of those recorded after, and the calls made
    before a prefix of those made after: nothing is removed or rewritten. *)
Theorem handle_failure_only_appends (now : Z) (a : BuildAnalysis) (w : World) :
  only_appends w (handle_failure ext now a w).1.
Proof. exact (only_appends_handle_failure now a w). Qed.

End frames.

(** ** A build analysed end to end *)

Section end_to_end.
Context (ext : Externals).

Lemma update_failure_patterns_frame now a w :
  analysis_cache (update_failure_patterns ext now a w) = analysis_cache w
  ∧ action_history (update_failure_patterns ext now a w) = action_history w
  ∧ events (update_failure_patterns ext now a w) = events w
  ∧ learning_enabled (update_failure_patterns ext now a w)
    = learning_enabled w.
Proof.
  unfold update_failure_patterns, _correlate_failure_with_success.
  destruct (successful_analyses _ a); [done|]. by case_decide.
Qed.

Lemma learn_from_build_frame now a w :
  analysis_cache (learn_from_build ext now a w) = analysis_cache w
  ∧ action_history (learn_from_build ext now a w) = action_history w
  ∧ events (learn_from_build ext now a w) = events w
  ∧ learning_enabled (learn_from_build ext now a w) = learning_enabled w.
Proof.
  unfold learn_from_build.
  destruct (String.eqb _ _); [done | apply update_failure_patterns_frame].
Qed.

Lemma analyze_and_act_cache now job number a w :
  analyzer_analyze_build ext job number = Ok a →
  analysis_cache (analyze_and_act ext now job number w)
  = oset (build_key job number) a (analysis_cache w)
  ∧ ∀ key, actions_of key w
           `prefix_of` actions_of key (analyze_and_act ext now job number w).
Proof.
  intros Hanalysis. unfold analyze_and_act. rewrite Hanalysis.
  fold (cache_analysis job number a w).
  assert (∃ w2 handled,
             (if String.eqb (result (build_info a)) "SUCCESS"
              then (cache_analysis job number a w, Ok ())
              else handle_failure ext now a (cache_analysis job number a w))
             = (w2, handled)
             ∧ only_appends (cache_analysis job number a w) w2)
    as (w2 & handled & -> & (_ & Hc & _ & Ha & _)).
  { destruct (String.eqb _ _).
    - eexists _, _. split; [done | apply only_appends_refl].
    - pose proof (only_appends_handle_failure ext now a
                    (cache_analysis job number a w)) as Hframe.
      destruct (handle_failure ext now a _). by eexists _, _. }
  destruct handled as [[]|e]; [|by split].
  destruct (learning_enabled w2); [|by split].
  destruct (learn_from_build_frame now a w2) as (Hc' & Ha' & _).
  split; [by rewrite Hc'|].
  intros key. unfold actions_of. rewrite Ha'. apply Ha.
Qed.

(** X13. Once [analyze_and_act] has obtained the analysis of a build,
    [get_actions] answers for that build with its build information and
    the actions recorded under its key (it does not answer 404), and those
    actions extend the ones recorded before. *)
Theorem get_actions_after_analyze_and_act (now : Z) (job : string)
    (number : Z) (a : BuildAnalysis) (w : World) :
  analyzer_analyze_build ext job number = Ok a →
  get_actions job number (analyze_and_act ext now job number w)
  = Http200 (build_info a,
             actions_of (build_key job number)
               (analyze_and_act ext now job number w))
  ∧ actions_of (build_key job number) w
    `prefix_of`
    actions_of (build_key job number) (analyze_and_act ext now job number w).
Proof.
  intros Hanalysis.
  destruct (analyze_and_act_cache now job number a w Hanalysis) as [Hc Ha].
  split; [|apply Ha].
  unfold get_actions. by rewrite Hc, oget_oset_eq.
Qed.

(** X14. With learning disabled, [analyze_and_act] leaves the pattern
    database as it was, whatever the analyzer returns and whatever
    remediation does. *)
Theorem analyze_and_act_without_learning (now : Z) (job : string)
    (number : Z) (w : World) :
  learning_enabled w = false →
  pattern_database (analyze_and_act ext now job number w)
  = pattern_database w.
Proof.
  intros Hoff. unfold analyze_and_act.
  destruct (analyzer_analyze_build ext job number) as [a|e]; [|done].
  fold (cache_analysis job number a w).
  destruct (String.eqb _ _).
  - simpl. by rewrite Hoff.
  - pose proof (only_appends_handle_failure ext now a
                  (cache_analysis job number a w)) as (Hdb & _ & Hl & _).
    destruct (handle_failure ext now a _) as [w2 [[]|e]]; simpl in *;
      [|done].
    rewrite Hl. simpl. by rewrite Hoff.
Qed.

Lemma handle_failure_quiet now a w log :
  job_patterns (job_name (build_info a)) w = [] →
  console_log (build_info a) = Some log →
  analyze_build_time ext log = Ok () →
  analyze_dependency_issues ext log = Ok [] →
  analyze_compilation_issues ext log = Ok [] →
  failed_tests (analyze_test_failures log) = [] →
  ∃ w',
    handle_failure ext now a w = (w', Ok ())
    ∧ pattern_database w' = pattern_database w
    ∧ analysis_cache w' = analysis_cache w
    ∧ learning_enabled w' = learning_enabled w
    ∧ action_history w' = action_history w
    ∧ events w' = events w ++ description_events ext a [].
Proof.
  intros Hjob Hlog Htime Hdeps Hcomps Htests.
  unfold handle_failure, match_known_patterns.
  fold (job_patterns (job_name (build_info a)) w).
  rewrite Hjob. cbn [collect_matches apply_matches].
  rewrite Hlog, Htime, Hdeps, Hcomps, Htests.
  unfold description_events. cbn [app].
  destruct (jenkins_update_build_description ext _ _ _); eexists;
    (split; [done|]); repeat split; simpl.
  by rewrite <- (assoc_L (++)).
Qed.

(** X11. The first failure of a job, end to end: when the store has no
    pattern for the job and the console log yields no failing test and no
    issue, [analyze_and_act] records no action, makes one attempt to post
    the build description (logging the error if it fails), and leaves a
    failure pattern for every key of the analysis whose frequency is the
    number of entries that carry the key. *)
Theorem first_failure_end_to_end (now : Z) (job : string) (number : Z)
    (a : BuildAnalysis) (w : World) (log : string) :
  analyzer_analyze_build ext job number = Ok a →
  result (build_info a) ≠ "SUCCESS" →
  learning_enabled w = true →
  job_patterns (job_name (build_info a)) w = [] →
  console_log (build_info a) = Some log →
  analyze_build_time ext log = Ok () →
  analyze_dependency_issues ext log = Ok [] →
  analyze_compilation_issues ext log = Ok [] →
  failed_tests (analyze_test_failures log) = [] →
  action_history (analyze_and_act ext now job number w) = action_history w
  ∧ events (analyze_and_act ext now job number w)
    = events w ++ description_events ext a []
  ∧ ∀ key, (0 < occurrences key a)%nat →
      ∃ r,
        find_failure key
          (job_patterns (job_name (build_info a))
             (analyze_and_act ext now job number w))
        = Some r
        ∧ p_frequency r = Z.of_nat (occurrences key a).
Proof.
  intros Hanalysis Hres Hon Hjob Hlog Htime Hdeps Hcomps Htests.
  unfold analyze_and_act. rewrite Hanalysis.
  fold (cache_analysis job number a w).
  destruct (String.eqb_spec (result (build_info a)) "SUCCESS"); [done|].
  destruct (handle_failure_quiet now a (cache_analysis job number a w) log)
    as (w2 & -> & Hdb & _ & Hl & Ha & He); try done.
  simpl in Hl. rewrite Hl, Hon.
  assert (learn_from_build ext now a w2 = update_failure_patterns ext now a w2)
    as ->.
  { unfold learn_from_build.
    by destruct (String.eqb_spec (result (build_info a)) "SUCCESS"). }
  destruct (update_failure_patterns_frame now a w2) as (_ & Ha' & He' & _).
  split; [by rewrite Ha', Ha|]. split; [by rewrite He', He|].
  intros key Hocc.
  rewrite find_failure_update_failure_patterns, decide_True by done.
  assert (job_patterns (job_name (build_info a)) w2 = []) as ->.
  { unfold job_patterns in *. by rewrite Hdb. }
  destruct (observe_foldl_is_Some now a key (error_patterns a) None)
    as [r Hr]; [by right|].
  exists r. split; [exact Hr|].
  pose proof (frequency_of_observe_analysis now a key None) as Hfreq.
  unfold observe_analysis in Hfreq. rewrite Hr in Hfreq. simpl in Hfreq.
  rewrite Hfreq. change (find_failure key []) with (@None PatternRecord).
  simpl. lia.
Qed.

End end_to_end.

Lemma get_actions_after_analyze_and_act_witness :
  analyzer_analyze_build (externals_returning four_failures_analysis) "job" 5
  = Ok four_failures_analysis
  ∧ get_actions "job" 5
      (analyze_and_act (externals_returning four_failures_analysis) 10
         "job" 5 (world_with_failure "HIGH" 0))
    = Http200 (build_info four_failures_analysis,
               actions_of "job#5"
                 (analyze_and_act (externals_returning four_failures_analysis)
                    10 "job" 5 (world_with_failure "HIGH" 0)))
  ∧ a_type
    <$> actions_of "job#5"
          (analyze_and_act (externals_returning four_failures_analysis) 10
             "job" 5 (world_with_failure "HIGH" 0))
    = [Some "pattern_match"].
Proof.
  split; [reflexivity|]. split.
  - apply (get_actions_after_analyze_and_act
             (externals_returning four_failures_analysis) 10 "job" 5
             four_failures_analysis (world_with_failure "HIGH" 0) eq_refl).
  - vm_compute. reflexivity.
Defined.

Lemma analyze_and_act_without_learning_witness :
  learning_enabled learning_off_world = false
  ∧ pattern_database
      (analyze_and_act (externals_returning unstable_analysis) 10 "job" 6
         learning_off_world)
    = pattern_database learning_off_world.
Proof.
  split; [reflexivity|].
  exact (analyze_and_act_without_learning
           (externals_returning unstable_analysis) 10 "job" 6
           learning_off_world eq_refl).
Defined.

Lemma first_failure_end_to_end_witness :
  analyzer_analyze_build (externals_returning unstable_analysis) "job" 6
  = Ok unstable_analysis
  ∧ result (build_info unstable_analysis) ≠ "SUCCESS"
  ∧ learning_enabled empty_world = true
  ∧ job_patterns "job" empty_world = []
  ∧ console_log (build_info unstable_analysis) = Some ""
  ∧ failed_tests (analyze_test_failures "") = []
  ∧ action_history
      (analyze_and_act (externals_returning unstable_analysis) 10 "job" 6
         empty_world)
    = []
  ∧ length
      (events
         (analyze_and_act (externals_returning unstable_analysis) 10 "job" 6
            empty_world))
    = 1%nat
  ∧ ∃ r,
      find_failure "E"
        (job_patterns "job"
           (analyze_and_act (externals_returning unstable_analysis) 10
              "job" 6 empty_world))
      = Some r
      ∧ p_frequency r = 1.
Proof.
  assert (result (build_info unstable_analysis) ≠ "SUCCESS") as Hres
    by (vm_compute; discriminate).
  destruct (first_failure_end_to_end (externals_returning unstable_analysis)
              10 "job" 6 unstable_analysis empty_world ""
              eq_refl Hres eq_refl eq_refl eq_refl eq_refl eq_refl eq_refl
              eq_refl) as (Hhistory & Hevents & Hlearnt).
  split; [reflexivity|]. split; [exact Hres|]. split; [reflexivity|].
  split; [reflexivity|]. split; [reflexivity|]. split; [reflexivity|].
  split; [exact Hhistory|]. split.
  - rewrite Hevents. reflexivity.
  - destruct (Hlearnt "E") as (r & Hr & Hfreq); [vm_compute; lia|].
    by exists r.
Defined.

(** ** Remediation: malformed entries, scraped issues, grouped tests *)

Lemma any_pattern_eq_raises s errors :
  ¬ Forall (λ ep, is_Some (ep_pattern ep)) errors →
  (∀ ep, ep ∈ errors → ep_pattern ep ≠ Some s) →
  any_pattern_eq s errors = Raise (KeyError "pattern").
Proof.
  induction errors as [|ep errors IH]; intros Hnot Hnone.
  - exfalso. apply Hnot. constructor.
  - simpl. destruct (ep_pattern ep) as [s'|] eqn:Hep; [|done].
    destruct (String.eqb_spec s' s) as [->|Hne].
    + exfalso. by apply (Hnone ep (list_elem_of_here _ _)).
    + apply IH.
      * intros Hall. apply Hnot. constructor; [by rewrite Hep | done].
      * intros ep' Hin. by apply Hnone, list_elem_of_further.
Qed.

Lemma any_pattern_eq_only_key_error s errors e :
  any_pattern_eq s errors = Raise e → e = KeyError "pattern".
Proof.
  induction errors as [|ep errors IH]; simpl; [done|].
  destruct (ep_pattern ep) as [s'|]; [|by intros [= <-]].
  by destruct (String.eqb s' s).
Qed.

Lemma collect_matches_raises a rs r :
  r ∈ rs → pattern_matches r a = Raise (KeyError "pattern") →
  collect_matches a rs = Raise (KeyError "pattern").
Proof.
  intros Hin Hr. induction rs as [|r0 rs IH]; [by apply elem_of_nil in Hin|].
  simpl. apply elem_of_cons in Hin as [<-|Hin].
  - by rewrite Hr.
  - destruct (pattern_matches r0 a) as [m|e] eqn:Hm; simpl.
    + by rewrite IH.
    + f_equal. by eapply any_pattern_eq_only_key_error.
Qed.

Section malformed.
Context (ext : Externals).

(** X10. When an entry of the analysis lacks ['pattern'] and the job has a
    stored pattern that none of the entries names, [handle_failure] raises
    [KeyError] before doing anything: the world is as it was (no solution
    applied, no action recorded, no description posted). *)
Theorem handle_failure_key_error (now : Z) (a : BuildAnalysis) (w : World)
    (r : PatternRecord) :
  ¬ well_keyed a →
  r ∈ job_patterns (job_name (build_info a)) w →
  (∀ ep, ep ∈ error_patterns a → ep_pattern ep ≠ Some (p_pattern r)) →
  handle_failure ext now a w = (w, Raise (KeyError "pattern")).
Proof.
  intros Hnot Hin Hnone. unfold handle_failure, match_known_patterns.
  fold (job_patterns (job_name (build_info a)) w).
  rewrite (collect_matches_raises a _ r Hin); [done|].
  by apply any_pattern_eq_raises.
Qed.

End malformed.

Lemma handle_failure_key_error_witness :
  ¬ well_keyed malformed_analysis
  ∧ sample_failure "E" "HIGH" 0 ∈ job_patterns "job" malformed_world
  ∧ handle_failure quiet_externals 10 malformed_analysis malformed_world
    = (malformed_world, Raise (KeyError "pattern")).
Proof.
  assert (¬ well_keyed malformed_analysis) as Hnot.
  { intros [[x Hx] _]%Forall_cons. discriminate Hx. }
  assert (sample_failure "E" "HIGH" 0 ∈ job_patterns "job" malformed_world)
    as Hin by apply list_elem_of_here.
  split; [exact Hnot|]. split; [exact Hin|].
  apply (handle_failure_key_error quiet_externals 10 malformed_analysis
           malformed_world (sample_failure "E" "HIGH" 0) Hnot Hin).
  intros ep ->%list_elem_of_singleton. discriminate.
Defined.

Lemma dependency_actions_typed issue :
  dependency_typed issue → dependency_actions issue = [].
Proof.
  unfold dependency_typed, dependency_actions. intros ->.
  by rewrite !decide_False by discriminate.
Qed.

Lemma compilation_actions_typed issue :
  compilation_typed issue → compilation_actions issue = [].
Proof.
  unfold compilation_typed, compilation_actions, dget.
  destruct (oget "type" issue) as [t|]; simpl; intros Ht.
  - subst t. by rewrite !decide_False by discriminate.
  - discriminate.
Qed.

(** X15. The two issue handlers act on the types ['missing'],
    ['version_conflict'], ['syntax_error'], ['type_error'] and
    ['import_error'] only: on issues typed ['dependency_error'] and
    ['compilation_error'], the types the scrapers give, however many there
    are, they report that there is nothing to handle. *)
Theorem scraped_issues_yield_no_action (a : BuildAnalysis)
    (dependency_issues compilation_issues : list (odict string atom)) :
  Forall dependency_typed dependency_issues →
  Forall compilation_typed compilation_issues →
  handle_dependency_issues a dependency_issues
  = "No dependency issues to handle"
  ∧ handle_compilation_issues a compilation_issues
    = "No compilation issues to handle".
Proof.
  intros Hdeps Hcomps.
  unfold handle_dependency_issues, handle_compilation_issues.
  assert (dependency_issues ≫= dependency_actions = []) as ->.
  { induction Hdeps as [|issue issues Hissue _ IH]; [done|].
    by rewrite bind_cons, dependency_actions_typed, IH. }
  assert (compilation_issues ≫= compilation_actions = []) as ->.
  { induction Hcomps as [|issue issues Hissue _ IH]; [done|].
    by rewrite bind_cons, compilation_actions_typed, IH. }
  done.
Qed.

Lemma scraped_issues_yield_no_action_witness :
  Forall dependency_typed [sample_dependency_issue; sample_dependency_issue]
  ∧ Forall compilation_typed [sample_compilation_issue]
  ∧ handle_dependency_issues four_failures_analysis
      [sample_dependency_issue; sample_dependency_issue]
    = "No dependency issues to handle"
  ∧ handle_compilation_issues four_failures_analysis
      [sample_compilation_issue]
    = "No compilation issues to handle".
Proof.
  assert (Forall dependency_typed
            [sample_dependency_issue; sample_dependency_issue]) as Hdeps
    by by repeat constructor.
  assert (Forall compilation_typed [sample_compilation_issue]) as Hcomps
    by by repeat constructor.
  split; [exact Hdeps|]. split; [exact Hcomps|].
  exact (scraped_issues_yield_no_action four_failures_analysis _ _
           Hdeps Hcomps).
Defined.

Lemma group_tests_same pkg ds acc :
  Forall (λ d, package_of d = pkg) ds →
  group_tests (VDict <$> ds) [(pkg, acc)] = Ok [(pkg, acc ++ (VDict <$> ds))].
Proof.
  intros Hpkg. revert acc.
  induction Hpkg as [|d ds Hd _ IH]; intros acc.
  - rewrite fmap_nil. cbn [group_tests]. by rewrite app_nil_r.
  - rewrite fmap_cons. cbn [group_tests py_get rbind].
    fold (package_of d). rewrite Hd. cbn [oget oset].
    rewrite !decide_True by done. cbn [default from_option].
    rewrite IH. by rewrite <- (assoc_L (++)).
Qed.

Lemma analyze_each_dicts ds w :
  analyze_each (VDict <$> ds) w
  = (foldl (λ w d, emit (EvAnalyzeTestFailure (py_str (name_of d))) w) w ds,
     Ok ((λ d, "Analyzing failure in " +:+ py_str (name_of d)) <$> ds)).
Proof.
  revert w. induction ds as [|d ds IH]; intros w; [done|].
  rewrite fmap_cons. cbn [analyze_each py_get].
  fold (dget d "name"). fold (name_of d). by rewrite IH.
Qed.

(** X16. Given failing tests that are dictionaries of one package,
    [handle_test_failures] answers with a single environment check for the
    package when there are more than three of them, and otherwise with one
    analysis per test, in order, named after the test. *)
Theorem handle_test_failures_one_package (a : BuildAnalysis)
    (tr : TestResults) (w : World) (ds : list (odict string atom))
    (pkg : atom) :
  failed_tests tr = VDict <$> ds →
  ds ≠ [] →
  Forall (λ d, package_of d = pkg) ds →
  handle_test_failures a tr w
  = if (3 <? length ds)%nat
    then (emit (EvCheckTestEnvironment (py_str pkg)) w,
          Ok ("Multiple failures in " +:+ py_str pkg
              +:+ " - checking environment"))
    else (foldl (λ w d, emit (EvAnalyzeTestFailure (py_str (name_of d))) w)
                w ds,
          Ok (join "; "
                ((λ d, "Analyzing failure in " +:+ py_str (name_of d))
                 <$> ds))).
Proof.
  intros Htests Hne Hpkg. unfold handle_test_failures. rewrite Htests.
  destruct ds as [|d ds]; [done|]. clear Hne.
  apply Forall_cons in Hpkg as [Hd Hpkg].
  rewrite fmap_cons. cbn [group_tests py_get rbind].
  fold (package_of d). rewrite Hd. cbn [oget oset default from_option app].
  rewrite (group_tests_same pkg ds [VDict d] Hpkg).
  cbn [handle_groups app].
  change (VDict d :: (VDict <$> ds)) with (VDict <$> (d :: ds)).
  rewrite length_fmap.
  destruct (3 <? length (d :: ds))%nat; [done|].
  rewrite analyze_each_dicts. by rewrite (right_id_L [] (++)).
Qed.

Lemma handle_test_failures_one_package_witness :
  failed_tests four_failures_dicts
  = VDict <$> [[("name", AStr "pkg.A.t1"); ("package", AStr "pkg.A")];
               [("name", AStr "pkg.A.t2"); ("package", AStr "pkg.A")];
               [("name", AStr "pkg.A.t3"); ("package", AStr "pkg.A")];
               [("name", AStr "pkg.A.t4"); ("package", AStr "pkg.A")]]
  ∧ (handle_test_failures four_failures_analysis four_failures_dicts
       empty_world).2
    = Ok "Multiple failures in pkg.A - checking environment"
  ∧ (handle_test_failures four_failures_analysis
       {| failed_tests := VDict <$> two_failures; error_count := 0;
          failure_count := 0; skipped_count := 0 |} empty_world).2
    = Ok "Analyzing failure in t1; Analyzing failure in t2".
Proof.
  split; [reflexivity|]. split.
  - rewrite (handle_test_failures_one_package four_failures_analysis
               four_failures_dicts empty_world
               [[("name", AStr "pkg.A.t1"); ("package", AStr "pkg.A")];
                [("name", AStr "pkg.A.t2"); ("package", AStr "pkg.A")];
                [("name", AStr "pkg.A.t3"); ("package", AStr "pkg.A")];
                [("name", AStr "pkg.A.t4"); ("package", AStr "pkg.A")]]
               (AStr "pkg.A"));
      [reflexivity | reflexivity | discriminate | by repeat constructor].
  - rewrite (handle_test_failures_one_package four_failures_analysis _
               empty_world two_failures (AStr "pkg.B"));
      [reflexivity | reflexivity | discriminate | by repeat constructor].
Defined.


(** ** The poll loop *)

Section monitor_facts.
Variable ext : Externals.

Lemma is_new_build_same (latest : option Z) : is_new_build latest latest = false.
Proof.
  destruct latest as [n|]; [|done]. unfold is_new_build.
  rewrite bool_decide_eq_true_2 by done. apply andb_false_r.
Qed.

Lemma monitor_job_poll_again now now' job reply latest last w :
  (x ←r reply; latest_build_of x) = Ok latest →
  let '(last1, w1, _) := monitor_job_poll ext now job reply last w in
  monitor_job_poll ext now' job reply last1 w1 = (last1, w1, 30).
Proof.
  intros Hok. unfold monitor_job_poll. rewrite Hok.
  destruct latest as [n|]; [|done].
  destruct (is_new_build (Some n) last) eqn:Hnew.
  - by rewrite is_new_build_same.
  - by rewrite Hnew.
Qed.

(** X17. While [get_job_info] keeps giving the same reply without an
    exception, only the first poll of [monitor_job] can act: the later
    polls neither analyse a build nor change the remembered build number,
    whether or not the first analysis succeeded. *)
Theorem monitor_job_analyses_once (now : Z) (nows : list Z) (job : string)
    (reply : pyres LastBuild) (latest last : option Z) (w : World) :
  (x ←r reply; latest_build_of x) = Ok latest →
  monitor_job_from ext (polls_at (now :: nows) reply) job last w
  = (monitor_job_poll ext now job reply last w).1.
Proof.
  intros Hok. unfold polls_at. rewrite fmap_cons.
  cbn [monitor_job_from].
  destruct (monitor_job_poll ext now job reply last w) as [[last1 w1] s] eqn:H1.
  cbn [fst].
  assert (Hagain : ∀ now', monitor_job_poll ext now' job reply last1 w1
                           = (last1, w1, 30)).
  { intros now'.
    pose proof (monitor_job_poll_again now now' job reply latest last w Hok)
      as Hstep.
    by rewrite H1 in Hstep. }
  clear H1. induction nows as [|now' nows IH]; [done|].
  rewrite fmap_cons. cbn [monitor_job_from]. by rewrite Hagain.
Qed.

(** X18. A job that never built answers with a null ['lastBuild']: every
    poll of [monitor_job] then fails inside the loop, so the run logs one
    error per poll and changes nothing else, and the remembered build
    stays as it was. *)
Theorem monitor_job_never_built (nows : list Z) (job : string)
    (last : option Z) (w : World) :
  monitor_job_from ext (polls_at nows (Ok LbNull)) job last w
  = (last,
     logged (length nows) (EvLogError ("Error monitoring job " +:+ job)) w).
Proof.
  revert w. induction nows as [|now nows IH]; intros w; [done|].
  unfold polls_at. rewrite fmap_cons. cbn [monitor_job_from].
  unfold monitor_job_poll. cbn [rbind latest_build_of].
  fold (polls_at nows (Ok LbNull)). rewrite IH. f_equal.
  unfold logged. cbn [length]. by rewrite Nat.iter_succ_r.
Qed.

End monitor_facts.

Lemma monitor_job_analyses_once_witness :
  monitor_job_from (externals_returning (passing_analysis 7))
    (polls_at [100; 130; 160] (Ok (LbDict (Some 7)))) "job" None empty_world
  = (monitor_job_poll (externals_returning (passing_analysis 7)) 100 "job"
       (Ok (LbDict (Some 7))) None empty_world).1.
Proof.
  apply (monitor_job_analyses_once (externals_returning (passing_analysis 7))
           100 [130; 160] "job" (Ok (LbDict (Some 7))) (Some 7) None
           empty_world).
  reflexivity.
Defined.


(** ** Scanning a log for error lines *)

Lemma scan_lines_numbered (lines : list string) (i : Z) (rest : list string) :
  (λ e, (le_line_number e, le_pattern e)) <$> scan_lines lines i rest
  = filter (λ p, is_error_line p.2 = true)
      (imap (λ k line, (i + Z.of_nat k + 1, line)) rest).
Proof.
  revert i. induction rest as [|line rest IH]; intros i; [done|].
  rewrite imap_cons. cbn [scan_lines]. rewrite fmap_app, IH.
  rewrite (imap_ext ((λ k l, (i + Z.of_nat k + 1, l)) ∘ S)
             (λ k l, (i + 1 + Z.of_nat k + 1, l)))
    by (intros k x _; cbn; f_equal; lia).
  replace (i + Z.of_nat 0 + 1) with (i + 1) by lia.
  destruct (is_error_line line) eqn:Hline.
  - by rewrite filter_cons_True by done.
  - rewrite filter_cons_False; [done|]. cbn [snd]. by rewrite Hline.
Qed.

(** X19. [extract_error_patterns] reports exactly the lines of the log on
    which one of its six searches succeeds, each once and in the order of
    the log, and every entry carries the whole line and its number counted
    from one. *)
Theorem extract_error_patterns_lines (log : string) :
  (λ e, (le_line_number e, le_pattern e)) <$> extract_error_patterns log
  = filter (λ p, is_error_line p.2 = true) (numbered_lines log).
Proof.
  unfold extract_error_patterns, numbered_lines.
  by rewrite scan_lines_numbered.
Qed.

Lemma drop_cons_inv {A : Type} (n : nat) (l r : list A) (x : A) :
  drop n l = x :: r → l !! n = Some x ∧ drop (S n) l = r.
Proof.
  intros Hdrop. split.
  - pose proof (lookup_drop l n 0) as Hhead.
    rewrite Hdrop, Nat.add_0_r in Hhead. by rewrite <- Hhead.
  - pose proof (drop_drop l 1 n) as Htail.
    rewrite Hdrop, Nat.add_1_r in Htail. by rewrite <- Htail.
Qed.

Lemma scan_lines_entry (lines : list string) (i : Z) (rest : list string)
    (e : LogError) :
  0 ≤ i → drop (Z.to_nat i) lines = rest →
  e ∈ scan_lines lines i rest →
  ∃ j : nat,
    lines !! j = Some (le_pattern e)
    ∧ le_line_number e = Z.of_nat j + 1
    ∧ le_context e = join newline (context_lines lines (Z.of_nat j)).
Proof.
  revert i. induction rest as [|line rest IH]; intros i Hi Hdrop Hin.
  - by apply elem_of_nil in Hin.
  - apply drop_cons_inv in Hdrop as [Hline Hdrop].
    cbn [scan_lines] in Hin. apply elem_of_app in Hin as [Hin|Hin].
    + destruct (is_error_line line); [|by apply elem_of_nil in Hin].
      apply list_elem_of_singleton in Hin as ->. cbn.
      exists (Z.to_nat i). rewrite Z2Nat.id by done. done.
    + apply (IH (i + 1)); [lia| |done].
      by replace (Z.to_nat (i + 1)) with (S (Z.to_nat i)) by lia.
Qed.

Lemma context_lines_window (lines : list string) (j : nat) (line : string) :
  lines !! j = Some line →
  (1 ≤ length (context_lines lines (Z.of_nat j)) ≤ 11)%nat
  ∧ context_lines lines (Z.of_nat j) !! (j `min` 5)%nat = Some line.
Proof.
  intros Hline. pose proof (lookup_lt_Some _ _ _ Hline) as Hlt.
  unfold context_lines, slice.
  assert (context_lines_at :
    take (Z.to_nat (Z.min (Z.of_nat (length lines)) (Z.of_nat j + 6)
                    - Z.max 0 (Z.of_nat j - 5)))
         (drop (Z.to_nat (Z.max 0 (Z.of_nat j - 5))) lines)
    !! (j `min` 5)%nat = Some line).
  { rewrite lookup_take_lt by lia. rewrite lookup_drop.
    by replace (Z.to_nat (Z.max 0 (Z.of_nat j - 5)) + j `min` 5)%nat
      with j by lia. }
  split; [|done]. split.
  - apply lookup_lt_Some in context_lines_at. lia.
  - rewrite length_take. lia.
Qed.

(** X20. The context of an entry of [extract_error_patterns] is a window of
    at most eleven lines of the log joined by newlines, and the reported
    line is in it: at the sixth place, or earlier when fewer than five
    lines precede it. *)
Theorem extract_error_patterns_context (log : string) (e : LogError) :
  e ∈ extract_error_patterns log →
  ∃ (j : nat) (window : list string),
    le_line_number e = Z.of_nat j + 1
    ∧ splitlines log !! j = Some (le_pattern e)
    ∧ le_context e = join newline window
    ∧ window = context_lines (splitlines log) (Z.of_nat j)
    ∧ (length window ≤ 11)%nat
    ∧ window !! (j `min` 5)%nat = Some (le_pattern e).
Proof.
  intros Hin. unfold extract_error_patterns in Hin.
  apply (scan_lines_entry _ 0) in Hin as (j & Hline & Hnumber & Hcontext);
    [|done|done].
  destruct (context_lines_window _ _ _ Hline) as [[_ Hlen] Hat].
  by exists j, (context_lines (splitlines log) (Z.of_nat j)).
Qed.

Lemma extract_error_patterns_context_witness :
  ∃ (j : nat) (window : list string),
    4 = Z.of_nat j + 1
    ∧ splitlines maven_log !! j = Some "Tests FAILED"
    ∧ join newline (splitlines maven_log) = join newline window
    ∧ window = context_lines (splitlines maven_log) (Z.of_nat j)
    ∧ (length window ≤ 11)%nat
    ∧ window !! (j `min` 5)%nat = Some "Tests FAILED".
Proof.
  apply (extract_error_patterns_context maven_log
           {| le_pattern := "Tests FAILED";
              le_context := join newline (splitlines maven_log);
              le_line_number := 4 |}).
  vm_compute. do 2 constructor.
Defined.


Lemma prefix_split (n h : string) :
  String.prefix n h = true → ∃ r, h = n +:+ r.
Proof.
  revert h. induction n as [|c n IH]; intros h Hpre; [by exists h|].
  destruct h as [|c' h]; [done|]. cbn in Hpre.
  destruct (Ascii.ascii_dec c c') as [->|]; [|done].
  destruct (IH h Hpre) as [r ->]. by exists r.
Qed.

Lemma build_failed_is_failed (line : string) :
  contains "BUILD FAILED" line = true → contains "failed" (lower line) = true.
Proof.
  induction line as [|c line IH]; [done|].
  unfold contains at 1; fold contains. intros [Hpre|Hin]%orb_true_iff.
  - apply prefix_split in Hpre as [r ->]. rewrite lower_app.
    exact (contains_app "failed" "build " (lower r)).
  - change (lower (String c line)) with (String (ascii_lower c) (lower line)).
    unfold contains; fold contains. rewrite (IH Hin). apply orb_true_r.
Qed.

(** X21. The search for [BUILD FAILED] never adds a line to the result of
    [extract_error_patterns]: a line it finds is already found by the
    case-insensitive search for [failed], so the scan selects the same
    lines without it. *)
Theorem build_failed_search_is_redundant (line : string) :
  existsb (λ search, search line) (delete 4%nat error_line_patterns)
  = is_error_line line.
Proof.
  unfold is_error_line, error_line_patterns. cbn [delete list_delete existsb].
  destruct (contains "BUILD FAILED" line) eqn:Hbuild; [|done].
  rewrite (build_failed_is_failed line Hbuild).
  by rewrite !orb_true_r.
Qed.
